(** * golem: the command layer ([golem/commands/base.py])

    A shallow embedding of the command classes of [base.py], and of [main]
    of [golem/bin/golem_admin.py], with the properties of target
    resolution, error reporting and creation that the specification states
    about them and that the code shows.

    The commands work on a shared, mutable [test_execution] object and call
    into [golem.core.utils], [golem.core.test_runner] and [golem.gui.suite].
    Those modules are collaborators: their functions are the fields of the
    interfaces [Utils], [TestRunner] and [SuiteModule], and every theorem is
    stated for all implementations of them.  Collaborator calls return
    normally; what they do to the world is recorded as an [event] of the
    command's log. *)

From Stdlib Require Import String Ascii List ZArith Bool Lia.
From Stdlib Require Import DecimalString DecimalNat.
Import ListNotations.
Open Scope string_scope.

Set Implicit Arguments.

(* ================================================================= *)
(** ** Python values *)

(** The values an attribute of [test_execution] holds here: [None] or a
    [str]. *)
Inductive value : Type :=
| VNone
| VStr (s : string).

(** [str(v)], what ['{0}'.format(v)] inserts. *)
Definition py_str (v : value) : string :=
  match v with
  | VNone => "None"
  | VStr s => s
  end.

(** Truth value of a [str]: non-empty. *)
Definition truthy (s : string) : bool := negb (s =? "").

(** Truth value of a list: non-empty. *)
Definition truthy_list {A} (l : list A) : bool :=
  match l with [] => false | _ :: _ => true end.

(** [x in l] for a list of [str]. *)
Definition py_in (x : string) (l : list string) : bool :=
  existsb (String.eqb x) l.

(** The newline character ['\n']. *)
Definition nl : string := String (ascii_of_nat 10) EmptyString.

(** [sep.join(l)]. *)
Definition join (sep : string) (l : list string) : string := String.concat sep l.

(** [s.startswith(sub)]. *)
Fixpoint starts_with (sub s : string) : bool :=
  match sub, s with
  | EmptyString, _ => true
  | String a sub', String b s' => Ascii.eqb a b && starts_with sub' s'
  | String _ _, EmptyString => false
  end.

(** [sub in s] for two [str]. *)
Fixpoint contains (sub s : string) : bool :=
  starts_with sub s ||
  match s with
  | EmptyString => false
  | String _ s' => contains sub s'
  end.

(** What a global name is bound to. *)
Inductive object : Type :=
| OModule (name : string)
| OClass (name : string)
| OBuiltin (name : string)
| OParser (usage : string).

(** Arguments of [print]. *)
Inductive atom : Type :=
| ANone
| AInt (z : Z)
| AStr (s : string).

Definition atom_of_int (t : option Z) : atom :=
  match t with
  | None => ANone
  | Some z => AInt z
  end.

(** The argument a [CommandException] is built with: a [str], or the list
    of lines [RunCommand.run] passes when the target is missing. *)
Inductive exc_arg : Type :=
| ArgStr (s : string)
| ArgList (l : list string).

Inductive exn : Type :=
| CommandException (a : exc_arg)
| NameError (name : string)
| AttributeError (attr : string).

(** Status of one executed test case. *)
Inductive status : Type := passed | failed | error.

Definition outcomes : Type := list (string * status).

(* ================================================================= *)
(** ** The shared execution context and the arguments *)

Definition Settings : Type := list (string * string).

(** The attributes of [test_execution] that [base.py] reads or writes.  An
    attribute that no command has assigned yet holds [None]. *)
Record TestExecution : Type := mkTE {
  thread_amount : option Z;
  drivers : option (list string);
  timestamp : value;
  root_path : string;
  project : value;
  settings : Settings;
  suite : value;
  test : value
}.

(** The namespace [argparse] builds for [run]: [project] and
    [test_or_suite] default to [''], [--threads] is an [int] or [None],
    [--drivers] a list or [None], [--timestamp] a [str] or [None]. *)
Record RunArgs : Type := mkRunArgs {
  args_project : string;
  args_test_or_suite : string;
  args_threads : option Z;
  args_drivers : option (list string);
  args_timestamp : value
}.

Record CreateProjectArgs : Type := mkCreateProjectArgs {
  cp_project : string
}.

Record CreateSuiteArgs : Type := mkCreateSuiteArgs {
  cs_project : string;
  cs_suite : string
}.

Record CreateUserArgs : Type := mkCreateUserArgs {
  cu_username : string;
  cu_password : string;
  cu_admin : bool;
  cu_projects : list string;
  cu_reports : list string
}.

(* ================================================================= *)
(** ** Effects *)

(** The calls a command makes that act on the world. *)
Inductive event : Type :=
| EPrint (items : list atom)
| EDisplayTree (test_cases : list string)
| ERunSuite (root : string) (proj suite_name : value) (is_directory : option bool)
| ERunSingleTestCase (root : string) (proj test_name : value)
| ECreateDemoProject (root : string)
| ECreateNewProject (root proj : string)
| ENewSuite (root : object) (proj suite_name : string)
| ECreateUser (root : object) (username password : string) (admin : bool)
              (projects reports : list string).

(** An event that starts the execution of tests. *)
Definition is_execution (e : event) : bool :=
  match e with
  | ERunSuite _ _ _ _ | ERunSingleTestCase _ _ _ => true
  | _ => false
  end.

(** An event that creates something on disk. *)
Definition is_creation (e : event) : bool :=
  match e with
  | ECreateDemoProject _ | ECreateNewProject _ _
  | ENewSuite _ _ _ | ECreateUser _ _ _ _ _ _ => true
  | _ => false
  end.

Record State : Type := mkState {
  st_te : TestExecution;
  st_log : list event
}.

Inductive result (A : Type) : Type :=
| Ok (a : A)
| Raise (e : exn).
Arguments Ok {A} a.
Arguments Raise {A} e.

(** A command: it runs on the state, returns or raises, and leaves the
    state as it was at that point (a raise undoes nothing). *)
Definition M (A : Type) : Type := State -> result A * State.

Definition ret {A} (a : A) : M A := fun s => (Ok a, s).

Definition bind {A B} (m : M A) (k : A -> M B) : M B :=
  fun s =>
    match m s with
    | (Ok a, s') => k a s'
    | (Raise e, s') => (Raise e, s')
    end.

Definition raise {A} (e : exn) : M A := fun s => (Raise e, s).

Declare Scope cmd_scope.
Delimit Scope cmd_scope with cmd.
Notation "x <- m ;; k" := (bind m (fun x => k))
  (at level 100, m at next level, right associativity) : cmd_scope.
Notation "m ;; k" := (bind m (fun _ => k))
  (at level 100, right associativity) : cmd_scope.
Open Scope cmd_scope.

Definition read {A} (f : TestExecution -> A) : M A :=
  fun s => (Ok (f (st_te s)), s).

Definition update (f : TestExecution -> TestExecution) : M unit :=
  fun s => (Ok tt, mkState (f (st_te s)) (st_log s)).

Definition emit (e : event) : M unit :=
  fun s => (Ok tt, mkState (st_te s) (st_log s ++ [e])).

Definition set_thread_amount (v : option Z) (te : TestExecution) : TestExecution :=
  mkTE v (drivers te) (timestamp te) (root_path te) (project te)
       (settings te) (suite te) (test te).

Definition set_drivers (v : option (list string)) (te : TestExecution) : TestExecution :=
  mkTE (thread_amount te) v (timestamp te) (root_path te) (project te)
       (settings te) (suite te) (test te).

Definition set_timestamp (v : value) (te : TestExecution) : TestExecution :=
  mkTE (thread_amount te) (drivers te) v (root_path te) (project te)
       (settings te) (suite te) (test te).

Definition set_project (v : value) (te : TestExecution) : TestExecution :=
  mkTE (thread_amount te) (drivers te) (timestamp te) (root_path te) v
       (settings te) (suite te) (test te).

Definition set_settings (v : Settings) (te : TestExecution) : TestExecution :=
  mkTE (thread_amount te) (drivers te) (timestamp te) (root_path te) (project te)
       v (suite te) (test te).

Definition set_suite (v : value) (te : TestExecution) : TestExecution :=
  mkTE (thread_amount te) (drivers te) (timestamp te) (root_path te) (project te)
       (settings te) v (test te).

Definition set_test (v : value) (te : TestExecution) : TestExecution :=
  mkTE (thread_amount te) (drivers te) (timestamp te) (root_path te) (project te)
       (settings te) (suite te) v.

(* ================================================================= *)
(** ** Name resolution in [base.py] *)

(** The names bound at module level: the imports of lines 1-4, the classes
    the module defines, and the names every module has. *)
Definition module_globals : list (string * object) :=
  [ ("os", OModule "os");
    ("test_runner", OModule "golem.core.test_runner");
    ("utils", OModule "golem.core.utils");
    ("gui_start", OModule "golem.gui.gui_start");
    ("test_case", OModule "golem.gui.test_case");
    ("suite_module", OModule "golem.gui.suite");
    ("BaseCommand", OClass "BaseCommand");
    ("CommandException", OClass "CommandException");
    ("RunCommand", OClass "RunCommand");
    ("GuiCommand", OClass "GuiCommand");
    ("CreateProjectCommand", OClass "CreateProjectCommand");
    ("CreateTestCommand", OClass "CreateTestCommand");
    ("CreateSuiteCommand", OClass "CreateSuiteCommand");
    ("CreateUserCommand", OClass "CreateUserCommand");
    ("CreateDirAdminCommand", OClass "CreateDirAdminCommand");
    ("__name__", OBuiltin "__name__");
    ("__doc__", OBuiltin "__doc__");
    ("__file__", OBuiltin "__file__");
    ("__package__", OBuiltin "__package__");
    ("__loader__", OBuiltin "__loader__");
    ("__spec__", OBuiltin "__spec__");
    ("__builtins__", OBuiltin "__builtins__") ].

(** The built-in functions, constants and exception classes. *)
Definition builtins : list string :=
  [ "abs"; "aiter"; "all"; "anext"; "any"; "ascii"; "bin"; "bool";
    "breakpoint"; "bytearray"; "bytes"; "callable"; "chr"; "classmethod";
    "compile"; "complex"; "delattr"; "dict"; "dir"; "divmod"; "enumerate";
    "eval"; "exec"; "filter"; "float"; "format"; "frozenset"; "getattr";
    "globals"; "hasattr"; "hash"; "help"; "hex"; "id"; "input"; "int";
    "isinstance"; "issubclass"; "iter"; "len"; "list"; "locals"; "map";
    "max"; "memoryview"; "min"; "next"; "object"; "oct"; "open"; "ord";
    "pow"; "print"; "property"; "range"; "repr"; "reversed"; "round";
    "set"; "setattr"; "slice"; "sorted"; "staticmethod"; "str"; "sum";
    "super"; "tuple"; "type"; "vars"; "zip"; "__import__";
    "True"; "False"; "None"; "NotImplemented"; "Ellipsis"; "__debug__";
    "copyright"; "credits"; "license"; "exit"; "quit";
    "BaseException"; "Exception"; "ArithmeticError"; "AssertionError";
    "AttributeError"; "BufferError"; "EOFError"; "ImportError";
    "IndexError"; "KeyError"; "KeyboardInterrupt"; "LookupError";
    "MemoryError"; "ModuleNotFoundError"; "NameError";
    "NotImplementedError"; "OSError"; "IOError"; "OverflowError";
    "RecursionError"; "ReferenceError"; "RuntimeError"; "StopIteration";
    "StopAsyncIteration"; "SyntaxError"; "IndentationError"; "TabError";
    "SystemError"; "SystemExit"; "TypeError"; "UnboundLocalError";
    "UnicodeError"; "UnicodeDecodeError"; "UnicodeEncodeError";
    "UnicodeTranslateError"; "ValueError"; "ZeroDivisionError";
    "FileExistsError"; "FileNotFoundError"; "PermissionError";
    "TimeoutError"; "Warning"; "DeprecationWarning"; "UserWarning" ].

Fixpoint assoc {A} (k : string) (l : list (string * A)) : option A :=
  match l with
  | [] => None
  | (k', v) :: l' => if k =? k' then Some v else assoc k l'
  end.

(** Reading a name that the function does not bind: module globals first,
    then the built-ins, else [NameError]. *)
Definition lookup_global (name : string) : result object :=
  match assoc name module_globals with
  | Some o => Ok o
  | None => if py_in name builtins then Ok (OBuiltin name) else Raise (NameError name)
  end.

Definition load_global (name : string) : M object :=
  fun s => (lookup_global name, s).

(** [o.usage]: only a parser has it. *)
Definition getattr_usage (o : object) : M string :=
  match o with
  | OParser u => ret u
  | _ => raise (AttributeError "usage")
  end.

(* ================================================================= *)
(** ** The collaborators *)

(** [golem.core.utils]: read queries over the workspace on disk, and
    [create_user], which returns the list of its error messages. *)
Record Utils : Type := mkUtils {
  get_projects : string -> list string;
  get_project_settings : string -> Settings -> Settings;
  get_test_cases : string -> value -> list string;
  get_suites : string -> value -> list string;
  test_suite_exists : string -> value -> string -> bool;
  is_first_level_directory : string -> value -> string -> bool;
  test_case_exists : string -> value -> string -> bool;
  create_user : object -> string -> string -> bool ->
                list string -> list string -> list string
}.

(** [golem.core.test_runner]: what a run reports back.  [is_directory] is
    [None] where the call does not pass it.  What the test runner writes to
    [test_execution] while it runs is not part of these answers: it is the
    [writes] of [run_with_runner]. *)
Record TestRunner : Type := mkTestRunner {
  run_suite : string -> value -> value -> option bool -> outcomes;
  run_single_test_case : string -> value -> value -> outcomes
}.

(** [golem.gui.suite]: [new_suite] returns the list of its error
    messages. *)
Record SuiteModule : Type := mkSuiteModule {
  new_suite : object -> string -> string -> list string
}.

(* ================================================================= *)
(** ** The commands *)

Section Commands.

Variable U : Utils.
Variable T : TestRunner.
Variable G : SuiteModule.

(** A call [utils.f(...)] of a read query: the name [utils] is looked
    up, the query answers. *)
Definition utils_query {A} (answer : A) : M A :=
  _ <- load_global "utils" ;; ret answer.

(** [print(...)]. *)
Definition py_print (items : list atom) : M unit :=
  _ <- load_global "print" ;; emit (EPrint items).

(** [raise CommandException(a)], the argument [a] already evaluated. *)
Definition raise_CommandException {A} (a : exc_arg) : M A :=
  raise (CommandException a).

(** [test_runner.run_suite(...)] and [test_runner.run_single_test_case(...)]:
    the call is logged and answers what the test runner reports.  What the
    test runner writes to [test_execution] meanwhile is added by
    [run_with_runner]. *)
Definition test_runner_run_suite (root : string) (proj suite_name : value)
    (is_directory : option bool) : M outcomes :=
  emit (ERunSuite root proj suite_name is_directory) ;;
  ret (run_suite T root proj suite_name is_directory).

Definition test_runner_run_single_test_case (root : string)
    (proj test_name : value) : M outcomes :=
  emit (ERunSingleTestCase root proj test_name) ;;
  ret (run_single_test_case T root proj test_name).

(** [RunCommand.run], lines 45-114. *)
Definition RunCommand_run (args : RunArgs) : M unit :=
  update (set_thread_amount (args_threads args)) ;;
  py_print [AStr "args.threads"; atom_of_int (args_threads args)] ;;
  update (set_drivers (args_drivers args)) ;;
  update (set_timestamp (args_timestamp args)) ;;
  root <- read root_path ;;
  if negb (truthy (args_project args)) then
    parser <- load_global "parser" ;;
    usage <- getattr_usage parser ;;
    let msg := ["Usage:"; usage; nl ++ nl; "Project List:"] in
    projs <- utils_query (get_projects U root) ;;
    let msg := (msg ++ map (fun proj => ("> " ++ proj)%string) projs)%list in
    _ <- load_global "CommandException" ;;
    raise_CommandException (ArgStr (join nl msg))
  else
    projs <- utils_query (get_projects U root) ;;
    if negb (py_in (args_project args) projs) then
      _ <- load_global "CommandException" ;;
      p <- read project ;;
      raise_CommandException
        (ArgStr ("Error: the project " ++ py_str p ++ " does not exist"))
    else
      update (set_project (VStr (args_project args))) ;;
      _ <- load_global "utils" ;;
      old <- read settings ;;
      update (set_settings (get_project_settings U (args_project args) old)) ;;
      if negb (truthy (args_test_or_suite args)) then
        parser <- load_global "parser" ;;
        usage <- getattr_usage parser ;;
        let msg := ["Usage: " ++ usage; "Test Cases:"] in
        p <- read project ;;
        test_cases <- utils_query (get_test_cases U root p) ;;
        _ <- load_global "utils" ;;
        emit (EDisplayTree test_cases) ;;
        let msg := (msg ++ ["Test Suites:"])%list in
        p <- read project ;;
        test_suites <- utils_query (get_suites U root p) ;;
        let msg := (msg ++ map (fun s => ("> " ++ s)%string) test_suites)%list in
        _ <- load_global "CommandException" ;;
        raise_CommandException (ArgList msg)
      else
        p <- read project ;;
        is_suite <- utils_query (test_suite_exists U root p (args_test_or_suite args)) ;;
        if is_suite then
          update (set_suite (VStr (args_test_or_suite args))) ;;
          _ <- load_global "test_runner" ;;
          p <- read project ;;
          su <- read suite ;;
          _ <- test_runner_run_suite root p su None ;;
          ret tt
        else
          p <- read project ;;
          is_dir <- utils_query
                      (is_first_level_directory U root p (args_test_or_suite args)) ;;
          if is_dir then
            update (set_suite (VStr (args_test_or_suite args))) ;;
            _ <- load_global "test_runner" ;;
            p <- read project ;;
            su <- read suite ;;
            _ <- test_runner_run_suite root p su (Some true) ;;
            ret tt
          else
            p <- read project ;;
            is_test <- utils_query
                         (test_case_exists U root p (args_test_or_suite args)) ;;
            if is_test then
              update (set_test (VStr (args_test_or_suite args))) ;;
              _ <- load_global "test_runner" ;;
              p <- read project ;;
              te <- read test ;;
              _ <- test_runner_run_single_test_case root p te ;;
              ret tt
            else
              _ <- load_global "CommandException" ;;
              raise_CommandException
                (ArgStr ("Error: the value " ++ args_test_or_suite args
                         ++ " does not match an existing suite or test")).

(** [CreateProjectCommand.run], lines 141-152. *)
Definition CreateProjectCommand_run (args : CreateProjectArgs) : M unit :=
  root <- read root_path ;;
  projs <- utils_query (get_projects U root) ;;
  if py_in (cp_project args) projs then
    let msg := "Error: a project with the name '" ++ cp_project args
               ++ "' already exists" in
    _ <- load_global "CommandException" ;;
    raise_CommandException (ArgStr msg)
  else if cp_project args =? "demo" then
    _ <- load_global "utils" ;;
    emit (ECreateDemoProject root)
  else
    _ <- load_global "utils" ;;
    emit (ECreateNewProject root (cp_project args)).

(** [CreateSuiteCommand.run], lines 185-192.  The function binds
    [self], [test_execution], [args] and [errors]; [root_path] is read
    as a global. *)
Definition CreateSuiteCommand_run (args : CreateSuiteArgs) : M unit :=
  _ <- load_global "utils" ;;
  root <- read root_path ;;
  let projs := get_projects U root in
  (if negb (py_in (cs_project args) projs) then
     _ <- load_global "CommandException" ;;
     raise_CommandException
       (ArgStr "Error: a project with that name does not exist")
   else ret tt) ;;
  _ <- load_global "suite_module" ;;
  root_path <- load_global "root_path" ;;
  emit (ENewSuite root_path (cs_project args) (cs_suite args)) ;;
  let errors := new_suite G root_path (cs_project args) (cs_suite args) in
  if truthy_list errors then
    _ <- load_global "CommandException" ;;
    raise_CommandException (ArgStr (join nl errors))
  else ret tt.

(** [CreateUserCommand.run], lines 208-215.  The function binds [self],
    [test_execution], [args] and [errors]; [root_path] is read as a
    global. *)
Definition CreateUserCommand_run (args : CreateUserArgs) : M unit :=
  _ <- load_global "utils" ;;
  root_path <- load_global "root_path" ;;
  emit (ECreateUser root_path (cu_username args) (cu_password args)
                    (cu_admin args) (cu_projects args) (cu_reports args)) ;;
  let errors := create_user U root_path (cu_username args) (cu_password args)
                            (cu_admin args) (cu_projects args) (cu_reports args) in
  if truthy_list errors then
    _ <- load_global "CommandException" ;;
    raise_CommandException (ArgStr (join nl errors))
  else
    py_print [AStr ("User " ++ cu_username args ++ " was created successfully")].

End Commands.

(* ================================================================= *)
(** ** A workspace on disk *)

(** The test-case tree of a project: files (test cases) and directories. *)
#[local] Unset Elimination Schemes.
Inductive node : Type :=
| File (name : string)
| Dir (name : string) (children : list node).
#[local] Set Elimination Schemes.

Record Project : Type := mkProject {
  p_name : string;
  p_suites : list string;
  p_test_cases : list node
}.

Definition Workspace : Type := list Project.

(** The directories of a tree, each as the list of its path segments,
    parents first. *)
Fixpoint dir_paths (n : node) : list (list string) :=
  match n with
  | File _ => []
  | Dir d children => [d] :: map (cons d) (flat_map dir_paths children)
  end.

(** The test cases of a tree, each as the list of its path segments. *)
Fixpoint test_paths (n : node) : list (list string) :=
  match n with
  | File f => [[f]]
  | Dir d children => map (cons d) (flat_map test_paths children)
  end.

(** The names of the directories directly under the root of a tree. *)
Definition first_level_directories (tree : list node) : list string :=
  flat_map (fun n => match n with File _ => [] | Dir d _ => [d] end) tree.

Definition find_project (ws : Workspace) (proj : value) : option Project :=
  match proj with
  | VNone => None
  | VStr name => find (fun p => p_name p =? name) ws
  end.

(** [target] is the path of a directory of the project's test-case tree, at
    any depth, its segments joined by [sep]. *)
Definition is_directory_path (sep : string) (ws : Workspace) (proj : value)
    (target : string) : bool :=
  match find_project ws proj with
  | None => false
  | Some p => py_in target (map (join sep) (flat_map dir_paths (p_test_cases p)))
  end.

(** One implementation of the interface [Utils], for the examples: a suite
    exists when the project declares it, a target is a first level
    directory when it is the name of a directory directly under the
    project's test-case tree, a test case exists when its dotted path names
    a file of the tree.  It is not the module [golem.core.utils]; the
    theorems on [run] hold for every implementation. *)
Definition workspace_utils (ws : Workspace) : Utils :=
  {| get_projects := fun _ => map p_name ws;
     get_project_settings := fun _ old => old;
     get_test_cases := fun _ proj =>
       match find_project ws proj with
       | None => []
       | Some p => map (join ".") (flat_map test_paths (p_test_cases p))
       end;
     get_suites := fun _ proj =>
       match find_project ws proj with
       | None => []
       | Some p => p_suites p
       end;
     test_suite_exists := fun _ proj target =>
       match find_project ws proj with
       | None => false
       | Some p => py_in target (p_suites p)
       end;
     is_first_level_directory := fun _ proj target =>
       match find_project ws proj with
       | None => false
       | Some p => py_in target (first_level_directories (p_test_cases p))
       end;
     test_case_exists := fun _ proj target =>
       match find_project ws proj with
       | None => false
       | Some p => py_in target (map (join ".") (flat_map test_paths (p_test_cases p)))
       end;
     create_user := fun _ _ _ _ _ _ => [] |}.

(** A test runner in which every test of a run passes. *)
Definition passing_runner : TestRunner :=
  {| run_suite := fun _ _ su _ => [(py_str su, passed)];
     run_single_test_case := fun _ _ te => [(py_str te, passed)] |}.

(** A test runner in which every test of a run fails. *)
Definition failing_runner : TestRunner :=
  {| run_suite := fun _ _ su _ => [(py_str su, failed)];
     run_single_test_case := fun _ _ te => [(py_str te, error)] |}.

Definition accepting_suite_module : SuiteModule :=
  {| new_suite := fun _ _ _ => [] |}.

(** The workspace of the examples: project [demo] declares the suite
    [smoke]; its test-case tree holds the directory [login] with the test
    cases [testX] and [testY] and a nested directory [admin]. *)
Definition demo_workspace : Workspace :=
  [ mkProject "demo" ["smoke"; "login.testX"]
      [ Dir "login" [ File "testX"; File "testY";
                      Dir "admin" [ File "reset" ] ];
        File "home" ] ].

Definition demo_utils : Utils := workspace_utils demo_workspace.

(** [test_execution] as a process starts with it. *)
Definition te0 : TestExecution :=
  mkTE None None VNone "/golem" VNone [] VNone VNone.

Definition s0 : State := mkState te0 [].

Definition run_args (proj target : string) : RunArgs :=
  mkRunArgs proj target (Some 0%Z) None VNone.

(* ================================================================= *)
(** ** Observing a run *)

(** The context once lines 46-49 have run. *)
Definition te_copied (args : RunArgs) (s : State) : TestExecution :=
  set_timestamp (args_timestamp args)
    (set_drivers (args_drivers args)
      (set_thread_amount (args_threads args) (st_te s))).

(** The context once lines 64-67 have run. *)
Definition te_project (U : Utils) (args : RunArgs) (s : State) : TestExecution :=
  set_settings
    (get_project_settings U (args_project args) (settings (te_copied args s)))
    (set_project (VStr (args_project args)) (te_copied args s)).

(** The line [print('args.threads', args.threads)] of every run. *)
Definition printed (args : RunArgs) : event :=
  EPrint [AStr "args.threads"; atom_of_int (args_threads args)].

(** The log once line 47 has run. *)
Definition log_printed (args : RunArgs) (s : State) : list event :=
  st_log s ++ [printed args].

(** The events a command emits when it runs on [s]. *)
Definition emitted {A} (m : M A) (s : State) : list event :=
  skipn (length (st_log s)) (st_log (snd (m s))).

(** How a command ends on [s]. *)
Definition outcome_of {A} (m : M A) (s : State) : result A := fst (m s).

(** The execution context a command leaves on [s]. *)
Definition context_after {A} (m : M A) (s : State) : TestExecution :=
  st_te (snd (m s)).

(** The command ended in an exception. *)
Definition raises {A} (r : result A) : Prop :=
  match r with
  | Ok _ => False
  | Raise _ => True
  end.

(* ================================================================= *)
(** ** Target resolution as the specification words it *)

(** What a target resolves to (section 4.1 of the specification). *)
Inductive resolution : Type :=
| DeclaredSuite
| DirectorySuite
| SingleTest
| NotFound.

(** The resolution order of section 4.1, first match wins, over the three
    queries [run] puts to [utils]. *)
Definition resolve_spec (U : Utils) (root : string) (proj : value)
    (target : string) : resolution :=
  if test_suite_exists U root proj target then DeclaredSuite
  else if is_first_level_directory U root proj target then DirectorySuite
  else if test_case_exists U root proj target then SingleTest
  else NotFound.

(** The one call into the test runner each resolution stands for. *)
Definition branch_of (r : resolution) (root : string) (proj : value)
    (target : string) : list event :=
  match r with
  | DeclaredSuite => [ERunSuite root proj (VStr target) None]
  | DirectorySuite => [ERunSuite root proj (VStr target) (Some true)]
  | SingleTest => [ERunSingleTestCase root proj (VStr target)]
  | NotFound => []
  end.

(** A project argument that is present and names a project of the
    workspace. *)
Definition valid_project (U : Utils) (args : RunArgs) (s : State) : Prop :=
  args_project args <> "" /\
  In (args_project args) (get_projects U (root_path (st_te s))).

(* ================================================================= *)
(** ** A reading of the specification that [run] does not meet *)

(** Resolution as free of effects: the run leaves the execution context as
    it found it, and emits nothing beside the calls into the test
    runner. *)
Definition resolution_pure_claim : Prop :=
  forall (U : Utils) (T : TestRunner) (args : RunArgs) (s : State),
    context_after (RunCommand_run U T args) s = st_te s
    /\ filter (fun e => negb (is_execution e)) (emitted (RunCommand_run U T args) s) = [].

(* ================================================================= *)
(** ** The other commands, and [golem_admin.main] *)

(** [s.split(c)] for a separator [c] of one character: the pieces between
    the occurrences of [c]; [''.split(c)] is [['']]. *)
Fixpoint split_char (c : ascii) (s : string) : list string :=
  match s with
  | EmptyString => [""]
  | String a s' =>
      if Ascii.eqb a c then "" :: split_char c s'
      else match split_char c s' with
           | [] => [String a ""]
           | piece :: pieces => String a piece :: pieces
           end
  end.

(** The character ['.'] that separates the segments of a test case. *)
Definition dot : ascii := "."%char.

(** [s.endswith(c)] for one character. *)
Fixpoint ends_with_char (c : ascii) (s : string) : bool :=
  match s with
  | EmptyString => false
  | String a EmptyString => Ascii.eqb a c
  | String _ s' => ends_with_char c s'
  end.

(** [c in s] for one character. *)
Fixpoint has_char (c : ascii) (s : string) : bool :=
  match s with
  | EmptyString => false
  | String a s' => Ascii.eqb a c || has_char c s'
  end.

(** [os.path.join(a, b)] on a POSIX system: an absolute [b] replaces [a],
    otherwise [b] is appended, after a ['/'] unless [a] is empty or ends
    with one. *)
Definition posix_join (a b : string) : string :=
  if starts_with "/" b then b
  else if (a =? "") || ends_with_char "/" a then a ++ b
  else a ++ "/" ++ b.

(** The exceptions of the remaining functions: those of [exn], the
    [IndexError] of [list.pop], the [NotImplementedError] of
    [BaseCommand.run] and the [SystemExit] of [parse_args]. *)
Inductive exception : Type :=
| Base (e : exn)
| IndexError (msg : string)
| NotImplementedError (msg : string)
| SystemExit (code : Z).

(** The calls of the remaining functions that act on the world. *)
Inductive action : Type :=
| CallPrint (items : list atom)
| CallNewTestCase (root proj : string) (parents : list string) (name : string)
| CallRunGui (port : option Z) (debug : bool)
| CallCreateTestDir (destination : string)
| CallCreatedirectoryCommand (name : string).

Record World : Type := mkWorld {
  w_te : TestExecution;
  w_log : list action
}.

Inductive reply (A : Type) : Type :=
| Returned (a : A)
| Raised (e : exception).
Arguments Returned {A} a.
Arguments Raised {A} e.

Definition Cmd (A : Type) : Type := World -> reply A * World.

Definition cmd_ret {A} (a : A) : Cmd A := fun w => (Returned a, w).

Definition cmd_bind {A B} (m : Cmd A) (k : A -> Cmd B) : Cmd B :=
  fun w =>
    match m w with
    | (Returned a, w') => k a w'
    | (Raised e, w') => (Raised e, w')
    end.

Definition throw {A} (e : exception) : Cmd A := fun w => (Raised e, w).

Definition call (a : action) : Cmd unit :=
  fun w => (Returned tt, mkWorld (w_te w) (w_log w ++ [a])).

Definition context {A} (f : TestExecution -> A) : Cmd A :=
  fun w => (Returned (f (w_te w)), w).

(** Reading a global name of [base.py]. *)
Definition global (name : string) : Cmd object :=
  fun w =>
    match lookup_global name with
    | Ok o => (Returned o, w)
    | Raise e => (Raised (Base e), w)
    end.

(** [l.pop()]: the last element and the list without it; [IndexError] on
    the empty list. *)
Definition pop (l : list string) : Cmd (string * list string) :=
  match rev l with
  | [] => throw (IndexError "pop from empty list")
  | x :: r => cmd_ret (x, rev r)
  end.

Declare Scope act_scope.
Delimit Scope act_scope with act.
Notation "x <- m ;; k" := (cmd_bind m (fun x => k))
  (at level 100, m at next level, right associativity) : act_scope.
Notation "m ;; k" := (cmd_bind m (fun _ => k))
  (at level 100, right associativity) : act_scope.

Record CreateTestArgs : Type := mkCreateTestArgs {
  ct_project : string;
  ct_test : string
}.

(** The namespace of [gui]: [--port] is an [int], [None] when the flag is
    given without a value. *)
Record GuiArgs : Type := mkGuiArgs {
  gui_port : option Z;
  gui_debug : bool
}.

(** The namespace [golem_admin.main] reads. *)
Record AdminArgs : Type := mkAdminArgs {
  adm_help : bool;
  adm_command : value;
  adm_name : string
}.

(** [golem.gui.test_case]: [new_test_case] returns the list of its error
    messages. *)
Record TestCaseModule : Type := mkTestCaseModule {
  new_test_case : string -> string -> list string -> string -> list string
}.

(** What [os] answers: [os.path.exists] and [os.getcwd()]. *)
Record Os : Type := mkOs {
  path_exists : string -> bool;
  getcwd : string
}.

(** Truth value of [None] or a [str]. *)
Definition truthy_value (v : value) : bool :=
  match v with
  | VNone => false
  | VStr s => truthy s
  end.

(** [v == s] for a [str] [s]. *)
Definition value_is (v : value) (s : string) : bool :=
  match v with
  | VNone => false
  | VStr s' => s' =? s
  end.

Section MoreCommands.

Variable U : Utils.
Variable C : TestCaseModule.
Variable O : Os.

Local Open Scope act_scope.

(** [BaseCommand.run], lines 17-18. *)
Definition BaseCommand_run : Cmd unit :=
  _ <- global "NotImplementedError" ;;
  throw (NotImplementedError "Command not implemented").

(** [GuiCommand.run], lines 129-132. *)
Definition GuiCommand_run (args : GuiArgs) : Cmd unit :=
  let port_number := gui_port args in
  let debug := gui_debug args in
  _ <- global "gui_start" ;;
  call (CallRunGui port_number debug).

(** [CreateTestCommand.run], lines 163-175. *)
Definition CreateTestCommand_run (args : CreateTestArgs) : Cmd unit :=
  root <- context root_path ;;
  _ <- global "utils" ;;
  (if negb (py_in (ct_project args) (get_projects U root)) then
     _ <- global "CommandException" ;;
     throw (Base (CommandException
                    (ArgStr "Error: a project with that name does not exist")))
   else cmd_ret tt) ;;
  let split_path := split_char dot (ct_test args) in
  popped <- pop split_path ;;
  let test_name := fst popped in
  let split_path := snd popped in
  _ <- global "test_case" ;;
  call (CallNewTestCase root (ct_project args) split_path test_name) ;;
  let errors := new_test_case C root (ct_project args) split_path test_name in
  if truthy_list errors then
    _ <- global "CommandException" ;;
    throw (Base (CommandException (ArgStr (join nl errors))))
  else cmd_ret tt.

(** [CreateDirAdminCommand.run], lines 225-235; it takes the arguments
    only, of which it reads [name]. *)
Definition CreateDirAdminCommand_run (name : string) : Cmd unit :=
  let dir_name := name in
  _ <- global "os" ;;
  (if path_exists O dir_name then
     _ <- global "CommandException" ;;
     throw (Base (CommandException
                    (ArgStr ("Error: the directory " ++ dir_name
                             ++ " already exists"))))
   else cmd_ret tt) ;;
  _ <- global "os" ;;
  let destination := posix_join (getcwd O) dir_name in
  _ <- global "utils" ;;
  call (CallCreateTestDir destination).

(** [main] of [golem_admin.py], lines 8-17.  [parse_args] is what
    [argument_parser.get_admin_parser().parse_args()] does with the command
    line, return the namespace or raise (it exits on a command line it
    rejects); [createdirectory_command] is what
    [commands.createdirectory_command] does with a name, return ([None]) or
    raise; [usage] is [messages.ADMIN_USAGE_MSG]. *)
Definition main (usage : string) (parse_args : reply AdminArgs)
    (createdirectory_command : string -> option exception) : Cmd unit :=
  args <- (fun w => (parse_args, w)) ;;
  if adm_help args then
    call (CallPrint [AStr usage])
  else if truthy_value (adm_command args) then
    if value_is (adm_command args) "createdirectory" then
      call (CallCreatedirectoryCommand (adm_name args)) ;;
      match createdirectory_command (adm_name args) with
      | None => cmd_ret tt
      | Some e => throw e
      end
    else cmd_ret tt
  else
    call (CallPrint [AStr usage]).

End MoreCommands.

(** The actions a command performs when it runs on [w]. *)
Definition performed {A} (m : Cmd A) (w : World) : list action :=
  skipn (length (w_log w)) (w_log (snd (m w))).

(** How a command ends on [w]. *)
Definition reply_of {A} (m : Cmd A) (w : World) : reply A := fst (m w).

(** The command ended in an exception. *)
Definition raised {A} (r : reply A) : Prop :=
  match r with
  | Returned _ => False
  | Raised _ => True
  end.

(** The name of a dotted test case: what follows its last dot. *)
Definition leaf_of (test : string) : string := last (split_char dot test) "".

(** The directories of a dotted test case: the pieces before its last
    dot. *)
Definition parents_of (test : string) : list string :=
  removelast (split_char dot test).

(** A test-case module that accepts every name, and one that rejects every
    name with two messages. *)
Definition accepting_test_case_module : TestCaseModule :=
  {| new_test_case := fun _ _ _ _ => [] |}.

Definition rejecting_test_case_module : TestCaseModule :=
  {| new_test_case := fun _ _ _ _ => ["Invalid name"; "Test exists"] |}.

(** A file system where only [golem] exists, seen from [/home/ann]. *)
Definition demo_os : Os :=
  {| path_exists := fun p => p =? "golem"; getcwd := "/home/ann" |}.

Definition w0 : World := mkWorld te0 [].

(* ================================================================= *)
(** ** The test runner and the shared context *)

(** [run], followed by what the test runner wrote to [test_execution]
    during its call.  The call into the test runner is the last statement
    of each branch of [run] that has one, and [run] returns exactly when it
    has made it: so the context a returning run leaves is [writes], at the
    call it made, applied to the context as [run] handed it over, and a run
    that raises has called no test runner.  [writes] is a parameter: it is
    whatever [test_runner], which is not under src/, does to the
    context. *)
Definition run_with_runner (writes : event -> TestExecution -> TestExecution)
    (U : Utils) (T : TestRunner) (args : RunArgs) : M unit :=
  fun s =>
    match RunCommand_run U T args s with
    | (Ok tt, s') =>
        (Ok tt, mkState (fold_left (fun te e => if is_execution e then writes e te else te)
                           (emitted (RunCommand_run U T args) s) (st_te s'))
                        (st_log s'))
    | (Raise e, s') => (Raise e, s')
    end.






(* ================================================================= *)
(** ** Directory suites as the specification words them *)

(** The segments of a directory path: its pieces between ['/'], without
    the empty piece that a trailing ['/'] leaves, as in the target
    [login/] of section 8. *)
Definition directory_segments (target : string) : list string :=
  let pieces := split_char "/" target in
  if last pieces "" =? "" then removelast pieces else pieces.

(** [a] is a prefix of [b], segment by segment. *)
Fixpoint is_prefix (a b : list string) : bool :=
  match a, b with
  | [], _ => true
  | x :: a', y :: b' => (x =? y) && is_prefix a' b'
  | _ :: _, [] => false
  end.

(** Modelled from the spec: [utils.is_first_level_directory], which is not
    under src/, by rule 2 of section 4.1: the target "matches a first-level
    (or nested) directory path under the project's test-case tree". *)
Definition spec_is_directory (ws : Workspace) (proj : value) (target : string) : bool :=
  is_directory_path "/" ws proj (join "/" (directory_segments target)).

(** Modelled from the spec: the queries of [golem.core.utils], which is not
    under src/, over a workspace, by section 4.1: a target is a declared
    suite when it "exactly matches a declared suite name for the project",
    a directory by [spec_is_directory], a test case when it "matches an
    existing test-case path". *)
Definition spec_utils (ws : Workspace) : Utils :=
  {| get_projects := get_projects (workspace_utils ws);
     get_project_settings := get_project_settings (workspace_utils ws);
     get_test_cases := get_test_cases (workspace_utils ws);
     get_suites := get_suites (workspace_utils ws);
     test_suite_exists := test_suite_exists (workspace_utils ws);
     is_first_level_directory := fun _ proj target => spec_is_directory ws proj target;
     test_case_exists := test_case_exists (workspace_utils ws);
     create_user := create_user (workspace_utils ws) |}.

(** Insertion into a list of strings in lexical order. *)
Fixpoint insert_sorted (x : string) (l : list string) : list string :=
  match l with
  | [] => [x]
  | y :: l' => if String.leb x y then x :: l else y :: insert_sorted x l'
  end.

Definition lexical_sort (l : list string) : list string :=
  fold_right insert_sorted [] l.

(** The paths of the test cases of a project, each as its list of
    segments. *)
Definition project_test_paths (ws : Workspace) (proj : value) : list (list string) :=
  match find_project ws proj with
  | None => []
  | Some p => flat_map test_paths (p_test_cases p)
  end.

(** Modelled from the spec: the test cases of a directory suite, by
    sections 3 and 4.1: "all TestCases whose path is prefixed by a given
    directory", "in deterministic lexical path order"; each is named by its
    dotted path. *)
Definition directory_suite_tests (ws : Workspace) (proj : value) (target : string)
    : list string :=
  lexical_sort
    (map (join ".")
       (filter (is_prefix (directory_segments target)) (project_test_paths ws proj))).

(** Modelled from the spec: [test_runner.run_suite], which is not under
    src/, when it is called with [is_directory=True]: one outcome, that of
    the execution primitive [execute] of section 6, for each test case of
    the directory suite, in order.  Every other call is answered by
    [T]. *)
Definition spec_runner (ws : Workspace) (execute : string -> status)
    (T : TestRunner) : TestRunner :=
  {| run_suite := fun root proj su is_directory =>
       match is_directory, su with
       | Some true, VStr target =>
           map (fun tc => (tc, execute tc)) (directory_suite_tests ws proj target)
       | _, _ => run_suite T root proj su is_directory
       end;
     run_single_test_case := run_single_test_case T |}.

(* ================================================================= *)
(** ** Basic facts *)

Lemma truthy_true (s : string) : truthy s = true <-> s <> "".
Proof.
  unfold truthy. rewrite negb_true_iff. split.
  - intros H E. subst s. discriminate H.
  - intros H. apply String.eqb_neq. exact H.
Qed.

Lemma truthy_false (s : string) : truthy s = false <-> s = "".
Proof.
  unfold truthy. rewrite negb_false_iff. apply String.eqb_eq.
Qed.

Lemma py_in_true (x : string) (l : list string) : py_in x l = true <-> In x l.
Proof.
  unfold py_in. rewrite existsb_exists. split.
  - intros [y [Hy E]]. apply String.eqb_eq in E. subst y. exact Hy.
  - intros H. exists x. split; [exact H | apply String.eqb_refl].
Qed.

Lemma py_in_false (x : string) (l : list string) : py_in x l = false <-> ~ In x l.
Proof.
  rewrite <- py_in_true. destruct (py_in x l); split; intro H.
  - discriminate H.
  - exfalso. apply H. reflexivity.
  - intro H'. discriminate H'.
  - reflexivity.
Qed.

Lemma contains_prefix (sub s : string) : starts_with sub s = true -> contains sub s = true.
Proof.
  intros H. destruct s; cbn [contains]; rewrite H; reflexivity.
Qed.

Lemma contains_cons (sub : string) (c : ascii) (s : string) :
  contains sub s = true -> contains sub (String c s) = true.
Proof.
  intros H. cbn [contains]. rewrite H. apply orb_true_r.
Qed.

Lemma prefix_append (s t : string) : starts_with s (s ++ t) = true.
Proof.
  induction s as [| c s IH]; simpl.
  - reflexivity.
  - rewrite Ascii.eqb_refl. exact IH.
Qed.

(** A string occurs in every string built around it. *)
Lemma contains_append (pre s post : string) : contains s (pre ++ s ++ post) = true.
Proof.
  induction pre as [| c pre IH].
  - simpl. apply contains_prefix. apply prefix_append.
  - change (String c pre ++ s ++ post) with (String c (pre ++ s ++ post)).
    apply contains_cons. exact IH.
Qed.

(** Neither name is bound in [base.py]. *)
Lemma lookup_parser : lookup_global "parser" = Raise (NameError "parser").
Proof. reflexivity. Qed.

Lemma lookup_root_path : lookup_global "root_path" = Raise (NameError "root_path").
Proof. reflexivity. Qed.

(* ================================================================= *)
(** ** [RunCommand.run] case by case *)

(** Unfolding a command down to the state it runs on. *)
Ltac unfold_command :=
  unfold RunCommand_run, CreateProjectCommand_run, CreateSuiteCommand_run,
    CreateUserCommand_run, test_runner_run_suite, test_runner_run_single_test_case,
    raise_CommandException, utils_query, py_print, load_global, bind, update, emit,
    read, raise, ret.

(** Running a command whose tests are decided by the hypotheses. *)
Ltac run_command :=
  unfold_command;
  repeat (cbn; match goal with H : _ = _ |- _ => rewrite H end);
  reflexivity.

Section RunCases.

Variable U : Utils.
Variable T : TestRunner.
Variable args : RunArgs.
Variable s : State.

Local Abbreviation root := (root_path (st_te s)).
Local Abbreviation proj := (VStr (args_project args)).
Local Abbreviation target := (args_test_or_suite args).

Lemma run_project_missing :
  truthy (args_project args) = false ->
  RunCommand_run U T args s
  = (Raise (NameError "parser"), mkState (te_copied args s) (log_printed args s)).
Proof. intros H. run_command. Qed.

Lemma run_project_unknown :
  truthy (args_project args) = true ->
  py_in (args_project args) (get_projects U root) = false ->
  RunCommand_run U T args s
  = (Raise (CommandException
              (ArgStr ("Error: the project " ++ py_str (project (st_te s))
                       ++ " does not exist"))),
     mkState (te_copied args s) (log_printed args s)).
Proof. intros H1 H2. run_command. Qed.

Lemma run_target_missing :
  truthy (args_project args) = true ->
  py_in (args_project args) (get_projects U root) = true ->
  truthy target = false ->
  RunCommand_run U T args s
  = (Raise (NameError "parser"), mkState (te_project U args s) (log_printed args s)).
Proof. intros H1 H2 H3. run_command. Qed.

Lemma run_suite_case :
  truthy (args_project args) = true ->
  py_in (args_project args) (get_projects U root) = true ->
  truthy target = true ->
  test_suite_exists U root proj target = true ->
  RunCommand_run U T args s
  = (Ok tt, mkState (set_suite (VStr target) (te_project U args s))
                    (log_printed args s ++ [ERunSuite root proj (VStr target) None])).
Proof. intros H1 H2 H3 H4. run_command. Qed.

Lemma run_directory_case :
  truthy (args_project args) = true ->
  py_in (args_project args) (get_projects U root) = true ->
  truthy target = true ->
  test_suite_exists U root proj target = false ->
  is_first_level_directory U root proj target = true ->
  RunCommand_run U T args s
  = (Ok tt, mkState (set_suite (VStr target) (te_project U args s))
                    (log_printed args s
                     ++ [ERunSuite root proj (VStr target) (Some true)])).
Proof. intros H1 H2 H3 H4 H5. run_command. Qed.

Lemma run_test_case :
  truthy (args_project args) = true ->
  py_in (args_project args) (get_projects U root) = true ->
  truthy target = true ->
  test_suite_exists U root proj target = false ->
  is_first_level_directory U root proj target = false ->
  test_case_exists U root proj target = true ->
  RunCommand_run U T args s
  = (Ok tt, mkState (set_test (VStr target) (te_project U args s))
                    (log_printed args s
                     ++ [ERunSingleTestCase root proj (VStr target)])).
Proof. intros H1 H2 H3 H4 H5 H6. run_command. Qed.

Lemma run_unresolved :
  truthy (args_project args) = true ->
  py_in (args_project args) (get_projects U root) = true ->
  truthy target = true ->
  test_suite_exists U root proj target = false ->
  is_first_level_directory U root proj target = false ->
  test_case_exists U root proj target = false ->
  RunCommand_run U T args s
  = (Raise (CommandException
              (ArgStr ("Error: the value " ++ target
                       ++ " does not match an existing suite or test"))),
     mkState (te_project U args s) (log_printed args s)).
Proof. intros H1 H2 H3 H4 H5 H6. run_command. Qed.

End RunCases.

(* ================================================================= *)
(** ** What a command adds to the log *)

Lemma skipn_length_app {A} (l x : list A) : skipn (length l) (l ++ x) = x.
Proof.
  induction l as [| a l IH]; simpl; [reflexivity | exact IH].
Qed.

Lemma emitted_app {A} (m : M A) (s : State) (r : result A) (te : TestExecution)
    (added : list event) :
  m s = (r, mkState te (st_log s ++ added)) -> emitted m s = added.
Proof.
  intros H. unfold emitted. rewrite H. simpl. apply skipn_length_app.
Qed.

(* ================================================================= *)
(** ** [run] against the resolution order *)

Lemma valid_project_bool (U : Utils) (args : RunArgs) (s : State) :
  valid_project U args s ->
  truthy (args_project args) = true /\
  py_in (args_project args) (get_projects U (root_path (st_te s))) = true.
Proof.
  intros [H1 H2]. split; [apply truthy_true | apply py_in_true]; assumption.
Qed.

(** With a valid project and a target, [run] is decided by the resolution
    alone. *)
Lemma run_resolved (U : Utils) (T : TestRunner) (args : RunArgs) (s : State) :
  valid_project U args s ->
  args_test_or_suite args <> "" ->
  let root := root_path (st_te s) in
  let proj := VStr (args_project args) in
  let target := args_test_or_suite args in
  let te := te_project U args s in
  RunCommand_run U T args s =
  match resolve_spec U root proj target with
  | DeclaredSuite | DirectorySuite =>
      (Ok tt, mkState (set_suite (VStr target) te)
                (log_printed args s
                 ++ branch_of (resolve_spec U root proj target) root proj target))
  | SingleTest =>
      (Ok tt, mkState (set_test (VStr target) te)
                (log_printed args s ++ branch_of SingleTest root proj target))
  | NotFound =>
      (Raise (CommandException
                (ArgStr ("Error: the value " ++ target
                         ++ " does not match an existing suite or test"))),
       mkState te (log_printed args s))
  end.
Proof.
  intros Hp Ht. apply valid_project_bool in Hp. destruct Hp as [H1 H2].
  apply truthy_true in Ht. cbv zeta. unfold resolve_spec.
  destruct (test_suite_exists U (root_path (st_te s)) (VStr (args_project args))
              (args_test_or_suite args)) eqn:E1.
  { apply run_suite_case; assumption. }
  destruct (is_first_level_directory U (root_path (st_te s)) (VStr (args_project args))
              (args_test_or_suite args)) eqn:E2.
  { apply run_directory_case; assumption. }
  destruct (test_case_exists U (root_path (st_te s)) (VStr (args_project args))
              (args_test_or_suite args)) eqn:E3.
  { apply run_test_case; assumption. }
  apply run_unresolved; assumption.
Qed.

Lemma log_printed_eq (args : RunArgs) (s : State) :
  log_printed args s = (st_log s ++ [printed args])%list.
Proof. reflexivity. Qed.

Lemma log_printed_branch (args : RunArgs) (s : State) (branch : list event) :
  (log_printed args s ++ branch = st_log s ++ printed args :: branch)%list.
Proof.
  rewrite log_printed_eq, <- app_assoc. reflexivity.
Qed.

(** What a run with a valid project and a target emits, by resolution. *)
Lemma emitted_resolved (U : Utils) (T : TestRunner) (args : RunArgs) (s : State) :
  valid_project U args s ->
  args_test_or_suite args <> "" ->
  emitted (RunCommand_run U T args) s
  = printed args ::
    branch_of (resolve_spec U (root_path (st_te s)) (VStr (args_project args))
                 (args_test_or_suite args))
      (root_path (st_te s)) (VStr (args_project args)) (args_test_or_suite args).
Proof.
  intros Hp Ht. pose proof (run_resolved T Hp Ht) as H. cbv zeta in H.
  destruct (resolve_spec U (root_path (st_te s)) (VStr (args_project args))
              (args_test_or_suite args));
    try rewrite log_printed_branch in H;
    try (rewrite log_printed_eq in H);
    eapply emitted_app; exact H.
Qed.

(** How a run with a valid project and a target ends, by resolution. *)
Lemma outcome_resolved (U : Utils) (T : TestRunner) (args : RunArgs) (s : State) :
  valid_project U args s ->
  args_test_or_suite args <> "" ->
  outcome_of (RunCommand_run U T args) s
  = match resolve_spec U (root_path (st_te s)) (VStr (args_project args))
            (args_test_or_suite args) with
    | NotFound =>
        Raise (CommandException
                 (ArgStr ("Error: the value " ++ args_test_or_suite args
                          ++ " does not match an existing suite or test")))
    | _ => Ok tt
    end.
Proof.
  intros Hp Ht. pose proof (run_resolved T Hp Ht) as H. cbv zeta in H.
  unfold outcome_of. rewrite H.
  destruct (resolve_spec U (root_path (st_te s)) (VStr (args_project args))
              (args_test_or_suite args)); reflexivity.
Qed.

Lemma resolve_spec_not_found (U : Utils) (root : string) (proj : value)
    (target : string) :
  resolve_spec U root proj target = NotFound <->
  test_suite_exists U root proj target = false /\
  is_first_level_directory U root proj target = false /\
  test_case_exists U root proj target = false.
Proof.
  unfold resolve_spec.
  destruct (test_suite_exists U root proj target),
           (is_first_level_directory U root proj target),
           (test_case_exists U root proj target);
    split; intros H; try discriminate H; try reflexivity;
    repeat split; destruct H as [H1 [H2 H3]];
    try discriminate H1; try discriminate H2; try discriminate H3.
Qed.

(* ================================================================= *)
(** ** Resolution of the target *)

(** C1: for every run with an existing project and a non-empty target, the
    target is resolved in the priority order declared suite, directory,
    test case, the first match winning, and the call of the matching
    branch ([run_suite], [run_suite] with [is_directory=True], or
    [run_single_test_case]) is the only one made besides the print of
    line 47. *)
Theorem run_resolution_priority (U : Utils) (T : TestRunner) (args : RunArgs)
    (s : State) :
  valid_project U args s ->
  args_test_or_suite args <> "" ->
  let root := root_path (st_te s) in
  let proj := VStr (args_project args) in
  let target := args_test_or_suite args in
  emitted (RunCommand_run U T args) s
  = printed args :: branch_of (resolve_spec U root proj target) root proj target
  /\ (test_suite_exists U root proj target = true ->
      emitted (RunCommand_run U T args) s
      = [printed args; ERunSuite root proj (VStr target) None])
  /\ (test_suite_exists U root proj target = false ->
      is_first_level_directory U root proj target = true ->
      emitted (RunCommand_run U T args) s
      = [printed args; ERunSuite root proj (VStr target) (Some true)])
  /\ (test_suite_exists U root proj target = false ->
      is_first_level_directory U root proj target = false ->
      test_case_exists U root proj target = true ->
      emitted (RunCommand_run U T args) s
      = [printed args; ERunSingleTestCase root proj (VStr target)]).
Proof.
  intros Hp Ht root proj target.
  pose proof (emitted_resolved T Hp Ht) as H. fold root proj target in H.
  split; [exact H |].
  unfold resolve_spec in H.
  repeat split.
  - intros E1. rewrite E1 in H. exact H.
  - intros E1 E2. rewrite E1, E2 in H. exact H.
  - intros E1 E2 E3. rewrite E1, E2, E3 in H. exact H.
Qed.

(** At [login.testX], a declared suite and a test case of [demo], the
    suite is run; at [login], a directory, [run_suite] is called with
    [is_directory=True]; at [login.testY], a test case only,
    [run_single_test_case] is called. *)
Lemma run_resolution_priority_witness :
  emitted (RunCommand_run demo_utils passing_runner (run_args "demo" "login.testX")) s0
  = [EPrint [AStr "args.threads"; AInt 0];
     ERunSuite "/golem" (VStr "demo") (VStr "login.testX") None]
  /\ emitted (RunCommand_run demo_utils passing_runner (run_args "demo" "login")) s0
  = [EPrint [AStr "args.threads"; AInt 0];
     ERunSuite "/golem" (VStr "demo") (VStr "login") (Some true)]
  /\ emitted (RunCommand_run demo_utils passing_runner (run_args "demo" "login.testY")) s0
  = [EPrint [AStr "args.threads"; AInt 0];
     ERunSingleTestCase "/golem" (VStr "demo") (VStr "login.testY")].
Proof.
  assert (Hp : forall target, valid_project demo_utils (run_args "demo" target) s0).
  { intros target. split; [discriminate | simpl; left; reflexivity]. }
  split; [| split].
  - refine (proj1 (@run_resolution_priority demo_utils passing_runner
                     (run_args "demo" "login.testX") s0 (Hp _) _)).
    discriminate.
  - refine (proj1 (@run_resolution_priority demo_utils passing_runner
                     (run_args "demo" "login") s0 (Hp _) _)).
    discriminate.
  - refine (proj1 (@run_resolution_priority demo_utils passing_runner
                     (run_args "demo" "login.testY") s0 (Hp _) _)).
    discriminate.
Defined.

(** C2: a target that is neither a declared suite, nor a directory, nor a
    test case of a valid project makes [run] raise a [CommandException]
    whose message contains the target, and no execution is started: the
    print of line 47 is all the run emits. *)
Theorem run_unresolved_target (U : Utils) (T : TestRunner) (args : RunArgs)
    (s : State) :
  valid_project U args s ->
  args_test_or_suite args <> "" ->
  let root := root_path (st_te s) in
  let proj := VStr (args_project args) in
  let target := args_test_or_suite args in
  let msg := "Error: the value " ++ target
             ++ " does not match an existing suite or test" in
  test_suite_exists U root proj target = false ->
  is_first_level_directory U root proj target = false ->
  test_case_exists U root proj target = false ->
  outcome_of (RunCommand_run U T args) s = Raise (CommandException (ArgStr msg))
  /\ contains target msg = true
  /\ emitted (RunCommand_run U T args) s = [printed args]
  /\ existsb is_execution (emitted (RunCommand_run U T args) s) = false.
Proof.
  intros Hp Ht root proj target msg E1 E2 E3.
  assert (N : resolve_spec U root proj target = NotFound).
  { apply resolve_spec_not_found. repeat split; assumption. }
  pose proof (outcome_resolved T Hp Ht) as Ho.
  pose proof (emitted_resolved T Hp Ht) as He.
  fold root proj target in Ho, He. rewrite N in Ho, He. simpl in He.
  repeat split.
  - exact Ho.
  - apply contains_append.
  - exact He.
  - rewrite He. reflexivity.
Qed.

(** [login/admin] names no suite, no first level directory and no test case
    of [demo]. *)
Lemma run_unresolved_target_witness :
  outcome_of (RunCommand_run demo_utils passing_runner (run_args "demo" "login/admin")) s0
  = Raise (CommandException
             (ArgStr "Error: the value login/admin does not match an existing suite or test"))
  /\ contains "login/admin"
       "Error: the value login/admin does not match an existing suite or test" = true
  /\ emitted (RunCommand_run demo_utils passing_runner (run_args "demo" "login/admin")) s0
     = [EPrint [AStr "args.threads"; AInt 0]]
  /\ existsb is_execution
       (emitted (RunCommand_run demo_utils passing_runner (run_args "demo" "login/admin")) s0)
     = false.
Proof.
  refine (@run_unresolved_target demo_utils passing_runner
            (run_args "demo" "login/admin") s0 _ _ _ _ _).
  - split; [discriminate | simpl; left; reflexivity].
  - discriminate.
  - reflexivity.
  - reflexivity.
  - reflexivity.
Defined.

(* ================================================================= *)
(** ** When [run] raises *)

(** C3: [run] raises exactly when the project argument is missing or names
    no project, or the target is missing or matches nothing; when the
    target resolves, [run] returns normally, whatever test runner is used
    and whatever outcomes it reports. *)
Theorem run_raises_iff (U : Utils) (T : TestRunner) (args : RunArgs) (s : State) :
  let root := root_path (st_te s) in
  let proj := VStr (args_project args) in
  let target := args_test_or_suite args in
  (raises (outcome_of (RunCommand_run U T args) s) <->
   args_project args = "" \/
   ~ In (args_project args) (get_projects U root) \/
   target = "" \/
   (test_suite_exists U root proj target = false /\
    is_first_level_directory U root proj target = false /\
    test_case_exists U root proj target = false))
  /\ (valid_project U args s ->
      target <> "" ->
      resolve_spec U root proj target <> NotFound ->
      outcome_of (RunCommand_run U T args) s = Ok tt).
Proof.
  intros root proj target. split.
  - destruct (truthy (args_project args)) eqn:E1.
    2:{ unfold outcome_of. rewrite (run_project_missing U T args s E1). simpl.
        apply truthy_false in E1. tauto. }
    destruct (py_in (args_project args) (get_projects U root)) eqn:E2.
    2:{ unfold outcome_of. rewrite (run_project_unknown U T args s E1 E2). simpl.
        apply py_in_false in E2. tauto. }
    destruct (truthy target) eqn:E3.
    2:{ unfold outcome_of. rewrite (run_target_missing U T args s E1 E2 E3). simpl.
        apply truthy_false in E3. tauto. }
    apply truthy_true in E1, E3. apply py_in_true in E2.
    assert (Hp : valid_project U args s) by (split; assumption).
    rewrite (outcome_resolved T Hp E3). fold root proj target.
    rewrite <- resolve_spec_not_found.
    destruct (resolve_spec U root proj target); simpl; split; intros H;
      try contradiction; try tauto;
      destruct H as [H | [H | [H | H]]];
      try contradiction; try discriminate H; try tauto.
  - intros Hp Ht Hr. rewrite (outcome_resolved T Hp Ht). fold root proj target.
    destruct (resolve_spec U root proj target); try reflexivity.
    exfalso. apply Hr. reflexivity.
Qed.

(** The suite [smoke] of [demo] is run and [run] returns, with a runner
    whose tests all fail. *)
Lemma run_raises_iff_witness :
  outcome_of (RunCommand_run demo_utils failing_runner (run_args "demo" "smoke")) s0
  = Ok tt.
Proof.
  refine (proj2 (@run_raises_iff demo_utils failing_runner
                   (run_args "demo" "smoke") s0) _ _ _).
  - split; [discriminate | simpl; left; reflexivity].
  - discriminate.
  - discriminate.
Defined.

(* ================================================================= *)
(** ** The project that does not exist *)

(** C4: [run] with a project that does not exist raises before anything
    is executed, but the message is formatted from
    [test_execution.project], which this call has not assigned (line 64
    is in the other branch), not from [args.project].  In a fresh process
    the message names [None]; after a run on [demo] it names [demo], a
    project that exists.  The project asked for, [ghost], is in neither
    message. *)
Theorem run_unknown_project_message :
  outcome_of (RunCommand_run demo_utils passing_runner (run_args "ghost" "smoke")) s0
  = Raise (CommandException (ArgStr "Error: the project None does not exist"))
  /\ contains "ghost" "Error: the project None does not exist" = false
  /\ emitted (RunCommand_run demo_utils passing_runner (run_args "ghost" "smoke")) s0
     = [EPrint [AStr "args.threads"; AInt 0]]
  /\ outcome_of (RunCommand_run demo_utils passing_runner (run_args "ghost" "smoke"))
       (snd (RunCommand_run demo_utils passing_runner (run_args "demo" "smoke") s0))
     = Raise (CommandException (ArgStr "Error: the project demo does not exist"))
  /\ contains "ghost" "Error: the project demo does not exist" = false.
Proof.
  repeat split; reflexivity.
Qed.

(** X12: for a project argument that is not empty and names no project,
    [run] raises a [CommandException] whose message is built from the
    [project] the context held when the call began; it emits the print of
    line 47 only and leaves that [project] in place. *)
Lemma run_unknown_project (U : Utils) (T : TestRunner) (args : RunArgs) (s : State) :
  args_project args <> "" ->
  ~ In (args_project args) (get_projects U (root_path (st_te s))) ->
  outcome_of (RunCommand_run U T args) s
  = Raise (CommandException
             (ArgStr ("Error: the project " ++ py_str (project (st_te s))
                      ++ " does not exist")))
  /\ emitted (RunCommand_run U T args) s = [printed args]
  /\ project (context_after (RunCommand_run U T args) s) = project (st_te s).
Proof.
  intros H1 H2. apply truthy_true in H1. apply py_in_false in H2.
  pose proof (run_project_unknown U T args s H1 H2) as H.
  unfold outcome_of, context_after. repeat split.
  - rewrite H. reflexivity.
  - eapply emitted_app. rewrite H, log_printed_eq. reflexivity.
  - rewrite H. reflexivity.
Qed.

(* ================================================================= *)
(** ** Directories *)

(** A target that [is_first_level_directory] accepts and that no declared
    suite is named after is run as a directory, whatever [utils] is: [run]
    sets [test_execution.suite] to it, calls [run_suite] with
    [is_directory=True] and nothing else, and returns. *)
Lemma run_first_level_directory (U : Utils) (T : TestRunner) (args : RunArgs)
    (s : State) :
  valid_project U args s ->
  args_test_or_suite args <> "" ->
  let root := root_path (st_te s) in
  let proj := VStr (args_project args) in
  let target := args_test_or_suite args in
  test_suite_exists U root proj target = false ->
  is_first_level_directory U root proj target = true ->
  outcome_of (RunCommand_run U T args) s = Ok tt
  /\ emitted (RunCommand_run U T args) s
     = [printed args; ERunSuite root proj (VStr target) (Some true)]
  /\ suite (context_after (RunCommand_run U T args) s) = VStr target.
Proof.
  intros Hp Ht root proj target E1 E2.
  apply valid_project_bool in Hp. destruct Hp as [H1 H2]. apply truthy_true in Ht.
  pose proof (run_directory_case U T args s H1 H2 Ht E1 E2) as H.
  fold root proj target in H. unfold outcome_of, context_after.
  repeat split.
  - rewrite H. reflexivity.
  - eapply emitted_app. rewrite H, log_printed_branch. reflexivity.
  - rewrite H. reflexivity.
Qed.

Lemma in_insert_sorted (x y : string) (l : list string) :
  In x (insert_sorted y l) <-> x = y \/ In x l.
Proof.
  induction l as [| z l IH]; simpl.
  - split; intros [H | H]; auto.
  - destruct (String.leb y z); simpl.
    + split; intros [H | H]; auto.
    + rewrite IH. split; intros H; tauto.
Qed.

Lemma in_lexical_sort (x : string) (l : list string) :
  In x (lexical_sort l) <-> In x l.
Proof.
  induction l as [| y l IH]; simpl; [tauto |].
  rewrite in_insert_sorted, IH. split; intros [H | H]; auto.
Qed.

(** The test cases of a directory suite are the test cases of the project
    whose path the directory prefixes. *)
Lemma in_directory_suite_tests (ws : Workspace) (proj : value) (target tc : string) :
  In tc (directory_suite_tests ws proj target) <->
  exists path, In path (project_test_paths ws proj)
               /\ is_prefix (directory_segments target) path = true
               /\ tc = join "." path.
Proof.
  unfold directory_suite_tests. rewrite in_lexical_sort, in_map_iff. split.
  - intros [path [E H]]. apply filter_In in H. destruct H as [H1 H2].
    exists path. repeat split; auto.
  - intros [path [H1 [H2 E]]]. exists path. split; [auto |].
    apply filter_In. split; assumption.
Qed.

Lemma spec_suite_exists (ws : Workspace) (root : string) (proj : value)
    (target : string) :
  ~ In target (get_suites (spec_utils ws) root proj) ->
  test_suite_exists (spec_utils ws) root proj target = false.
Proof.
  simpl. destruct (find_project ws proj); [| reflexivity].
  intros H. apply py_in_false. exact H.
Qed.

(** C5: with the queries and the directory run of the test runner as the
    specification words them, every target that is the path of a
    directory of the project's test-case tree, first-level or nested, and
    that no declared suite is named after, is run as a directory suite:
    [run] calls [run_suite] with [is_directory=True] and nothing else, and
    returns; the test cases of that run are the test cases of the project
    whose path the directory prefixes, all of them and no other. *)
Theorem run_directory_suite (ws : Workspace) (execute : string -> status)
    (T : TestRunner) (args : RunArgs) (s : State) :
  let U := spec_utils ws in
  let R := spec_runner ws execute T in
  let root := root_path (st_te s) in
  let proj := VStr (args_project args) in
  let target := args_test_or_suite args in
  let covered := map fst (run_suite R root proj (VStr target) (Some true)) in
  valid_project U args s ->
  target <> "" ->
  spec_is_directory ws proj target = true ->
  ~ In target (get_suites U root proj) ->
  outcome_of (RunCommand_run U R args) s = Ok tt
  /\ emitted (RunCommand_run U R args) s
     = [printed args; ERunSuite root proj (VStr target) (Some true)]
  /\ (forall path,
        In path (project_test_paths ws proj) ->
        is_prefix (directory_segments target) path = true ->
        In (join "." path) covered)
  /\ (forall tc,
        In tc covered ->
        exists path, In path (project_test_paths ws proj)
                     /\ is_prefix (directory_segments target) path = true
                     /\ tc = join "." path).
Proof.
  intros U R root proj target covered Hp Ht Hd Hs.
  assert (C : covered = directory_suite_tests ws proj target).
  { subst covered. simpl. rewrite map_map. simpl. apply map_id. }
  destruct (@run_first_level_directory U R args s Hp Ht) as [Ho [He _]].
  - apply spec_suite_exists. exact Hs.
  - exact Hd.
  - repeat split.
    + exact Ho.
    + exact He.
    + intros path H1 H2. rewrite C. apply in_directory_suite_tests.
      exists path. repeat split; assumption.
    + intros tc H. rewrite C in H. apply in_directory_suite_tests. exact H.
Qed.

(** The nested directory [login/admin] of [demo], and the directory
    [login/] with the test cases under it. *)
Lemma run_directory_suite_witness :
  emitted (RunCommand_run (spec_utils demo_workspace)
             (spec_runner demo_workspace (fun _ => passed) passing_runner)
             (run_args "demo" "login/admin")) s0
  = [EPrint [AStr "args.threads"; AInt 0];
     ERunSuite "/golem" (VStr "demo") (VStr "login/admin") (Some true)]
  /\ In (join "." ["login"; "admin"; "reset"])
        (map fst (run_suite (spec_runner demo_workspace (fun _ => passed) passing_runner)
                    "/golem" (VStr "demo") (VStr "login/") (Some true))).
Proof.
  split.
  - refine (proj1 (proj2 (@run_directory_suite demo_workspace (fun _ => passed)
                            passing_runner (run_args "demo" "login/admin") s0
                            _ _ _ _))).
    + split; [discriminate | simpl; left; reflexivity].
    + discriminate.
    + reflexivity.
    + simpl. intros [H | [H | H]]; [discriminate H | discriminate H | exact H].
  - refine (proj1 (proj2 (proj2 (@run_directory_suite demo_workspace (fun _ => passed)
                                   passing_runner (run_args "demo" "login/") s0
                                   _ _ _ _))) ["login"; "admin"; "reset"] _ _).
    + split; [discriminate | simpl; left; reflexivity].
    + discriminate.
    + reflexivity.
    + simpl. intros [H | [H | H]]; [discriminate H | discriminate H | exact H].
    + simpl. right. right. left. reflexivity.
    + reflexivity.
Defined.

(* ================================================================= *)
(** ** What [run] writes *)

(** C6, as stated, fails: the run of [demo] with the target [nothing],
    which resolves to nothing and executes nothing, has overwritten
    [thread_amount] and [project] of the shared context and printed a
    line. *)
Lemma run_resolution_writes_context :
  context_after (RunCommand_run demo_utils passing_runner (run_args "demo" "nothing")) s0
  = mkTE (Some 0%Z) None VNone "/golem" (VStr "demo") [] VNone VNone
  /\ st_te s0 = mkTE None None VNone "/golem" VNone [] VNone VNone
  /\ emitted (RunCommand_run demo_utils passing_runner (run_args "demo" "nothing")) s0
     = [EPrint [AStr "args.threads"; AInt 0]]
  /\ ~ resolution_pure_claim.
Proof.
  repeat split.
  intros C.
  destruct (C demo_utils passing_runner (run_args "demo" "nothing") s0) as [C1 _].
  discriminate C1.
Qed.

(** A run that raises has called no test runner: the context is as [run]
    left it. *)
Lemma run_with_runner_raise (writes : event -> TestExecution -> TestExecution)
    (U : Utils) (T : TestRunner) (args : RunArgs) (s s' : State) (e : exn) :
  RunCommand_run U T args s = (Raise e, s') ->
  run_with_runner writes U T args s = (Raise e, s').
Proof.
  intros H. unfold run_with_runner. rewrite H. reflexivity.
Qed.

(** A run that returns has made one call: the context is what the test
    runner made, at that call, of the context [run] handed over. *)
Lemma run_with_runner_return (writes : event -> TestExecution -> TestExecution)
    (U : Utils) (T : TestRunner) (args : RunArgs) (s : State)
    (te : TestExecution) (e : event) :
  is_execution e = true ->
  RunCommand_run U T args s
  = (Ok tt, mkState te (st_log s ++ [printed args; e])) ->
  run_with_runner writes U T args s
  = (Ok tt, mkState (writes e te) (st_log s ++ [printed args; e])).
Proof.
  intros X H. unfold run_with_runner.
  rewrite (@emitted_app _ _ _ _ _ _ H), H. simpl. rewrite X. reflexivity.
Qed.

(** Every run, with the test runner writing to the context what it will:
    what is emitted, how the run ends, and the context [run] leaves or
    hands over. *)
Lemma run_handed_over (writes : event -> TestExecution -> TestExecution)
    (U : Utils) (T : TestRunner) (args : RunArgs) (s : State) :
  let te := st_te s in
  let root := root_path (st_te s) in
  let proj := VStr (args_project args) in
  let target := args_test_or_suite args in
  exists (handed : TestExecution) (branch : list event),
    emitted (run_with_runner writes U T args) s = printed args :: branch
    /\ ((raises (outcome_of (run_with_runner writes U T args) s)
         /\ branch = []
         /\ context_after (run_with_runner writes U T args) s = handed)
        \/ (outcome_of (run_with_runner writes U T args) s = Ok tt
            /\ valid_project U args s
            /\ target <> ""
            /\ exists e,
                 branch = [e]
                 /\ branch_of (resolve_spec U root proj target) root proj target = [e]
                 /\ context_after (run_with_runner writes U T args) s
                    = writes e handed))
    /\ root_path handed = root_path te
    /\ thread_amount handed = args_threads args
    /\ drivers handed = args_drivers args
    /\ timestamp handed = args_timestamp args
    /\ ((project handed = project te /\ settings handed = settings te)
        \/ (project handed = VStr (args_project args)
            /\ settings handed
               = get_project_settings U (args_project args) (settings te)))
    /\ ((suite handed = suite te /\ test handed = test te)
        \/ (suite handed = VStr target /\ test handed = test te)
        \/ (suite handed = suite te /\ test handed = VStr target)).
Proof.
  intros te root proj target. subst te root proj target.
  unfold outcome_of, context_after.
  assert (Raising : forall e te',
            RunCommand_run U T args s = (Raise e, mkState te' (log_printed args s)) ->
            emitted (run_with_runner writes U T args) s = [printed args]
            /\ raises (fst (run_with_runner writes U T args s))
            /\ st_te (snd (run_with_runner writes U T args s)) = te').
  { intros e te' H. pose proof (run_with_runner_raise writes _ _ _ _ H) as H'.
    repeat split.
    - eapply emitted_app. rewrite H', log_printed_eq. reflexivity.
    - rewrite H'. exact I.
    - rewrite H'. reflexivity. }
  destruct (truthy (args_project args)) eqn:E1.
  2:{ destruct (Raising _ _ (run_project_missing U T args s E1)) as [A [B C]].
      exists (te_copied args s), []. split; [exact A |].
      split; [left; repeat split; assumption |]. cbn. repeat split; auto. }
  destruct (py_in (args_project args) (get_projects U (root_path (st_te s)))) eqn:E2.
  2:{ destruct (Raising _ _ (run_project_unknown U T args s E1 E2)) as [A [B C]].
      exists (te_copied args s), []. split; [exact A |].
      split; [left; repeat split; assumption |]. cbn. repeat split; auto. }
  destruct (truthy (args_test_or_suite args)) eqn:E3.
  2:{ destruct (Raising _ _ (run_target_missing U T args s E1 E2 E3)) as [A [B C]].
      exists (te_project U args s), []. split; [exact A |].
      split; [left; repeat split; assumption |]. cbn. repeat split; auto. }
  apply truthy_true in E1, E3. apply py_in_true in E2.
  assert (Hp : valid_project U args s) by (split; assumption).
  pose proof (run_resolved T Hp E3) as H. cbv zeta in H.
  destruct (resolve_spec U (root_path (st_te s)) (VStr (args_project args))
              (args_test_or_suite args)) eqn:R; cbn [branch_of] in *.
  - rewrite log_printed_branch in H.
    pose proof (fun X => @run_with_runner_return writes U T args s _ _ X H) as H'.
    specialize (H' eq_refl).
    eexists _, _. split; [eapply emitted_app; exact H' |].
    split; [right; rewrite H'; repeat split; auto; eexists; repeat split |].
    cbn. repeat split; auto.
  - rewrite log_printed_branch in H.
    pose proof (fun X => @run_with_runner_return writes U T args s _ _ X H) as H'.
    specialize (H' eq_refl).
    eexists _, _. split; [eapply emitted_app; exact H' |].
    split; [right; rewrite H'; repeat split; auto; eexists; repeat split |].
    cbn. repeat split; auto.
  - rewrite log_printed_branch in H.
    pose proof (fun X => @run_with_runner_return writes U T args s _ _ X H) as H'.
    specialize (H' eq_refl).
    eexists _, _. split; [eapply emitted_app; exact H' |].
    split; [right; rewrite H'; repeat split; auto; eexists; repeat split |].
    cbn. repeat split; auto.
  - destruct (Raising _ _ H) as [A [B C]].
    exists (te_project U args s), []. split; [exact A |].
    split; [left; repeat split; assumption |]. cbn. repeat split; auto.
Qed.

(** C6, amended: resolving a target calls nothing but the matching branch
    of the test runner, once, and nothing at all when [run] raises; beside
    that call [run] emits the print of line 47 only.  It does write the
    shared context: by the time [run] raises or hands over to the test
    runner, [thread_amount], [drivers] and [timestamp] hold the arguments,
    [project] and [settings] are as they were or hold the project argument
    and the settings of that project, [suite] and [test] are as they were
    or one of them holds the target, and [root_path] is as it was.  After
    a run that returns, the context is what the test runner made of the
    context handed over, whatever the test runner writes. *)
Theorem run_frame (writes : event -> TestExecution -> TestExecution)
    (U : Utils) (T : TestRunner) (args : RunArgs) (s : State) :
  let te := st_te s in
  let root := root_path (st_te s) in
  let proj := VStr (args_project args) in
  let target := args_test_or_suite args in
  exists (handed : TestExecution) (branch : list event),
    emitted (run_with_runner writes U T args) s = printed args :: branch
    /\ ((raises (outcome_of (run_with_runner writes U T args) s)
         /\ branch = []
         /\ context_after (run_with_runner writes U T args) s = handed)
        \/ (outcome_of (run_with_runner writes U T args) s = Ok tt
            /\ valid_project U args s
            /\ target <> ""
            /\ exists e,
                 branch = [e]
                 /\ branch_of (resolve_spec U root proj target) root proj target = [e]
                 /\ context_after (run_with_runner writes U T args) s
                    = writes e handed))
    /\ root_path handed = root_path te
    /\ thread_amount handed = args_threads args
    /\ drivers handed = args_drivers args
    /\ timestamp handed = args_timestamp args
    /\ ((project handed = project te /\ settings handed = settings te)
        \/ (project handed = VStr (args_project args)
            /\ settings handed
               = get_project_settings U (args_project args) (settings te)))
    /\ ((suite handed = suite te /\ test handed = test te)
        \/ (suite handed = VStr target /\ test handed = test te)
        \/ (suite handed = suite te /\ test handed = VStr target)).
Proof.
  exact (run_handed_over writes U T args s).
Qed.

(* ================================================================= *)
(** ** Thread amount and timestamp *)





(* ================================================================= *)
(** ** Names that are not bound *)

(** C8: with an empty project argument, or with an existing project and an
    empty target, [run] reads [parser], which neither the function nor the
    module nor the built-ins bind: it ends in [NameError], not in the
    [CommandException] with the usage message that the lines build. *)
Theorem run_usage_name_error (U : Utils) (T : TestRunner) (args : RunArgs)
    (s : State) :
  lookup_global "parser" = Raise (NameError "parser")
  /\ (args_project args = ""
      \/ (In (args_project args) (get_projects U (root_path (st_te s)))
          /\ args_test_or_suite args = "") ->
      outcome_of (RunCommand_run U T args) s = Raise (NameError "parser")
      /\ (forall a, outcome_of (RunCommand_run U T args) s
                    <> Raise (CommandException a))
      /\ emitted (RunCommand_run U T args) s = [printed args]).
Proof.
  split; [reflexivity |].
  intros H.
  assert (E : exists te', RunCommand_run U T args s
                          = (Raise (NameError "parser"),
                             mkState te' (log_printed args s))).
  { destruct (truthy (args_project args)) eqn:E1.
    - destruct H as [H | [H1 H2]].
      + apply truthy_false in H. rewrite H in E1. discriminate E1.
      + apply py_in_true in H1. apply truthy_false in H2.
        eexists. apply run_target_missing; assumption.
    - eexists. apply run_project_missing; assumption. }
  destruct E as [te' E]. unfold outcome_of. rewrite E. cbn [fst].
  repeat split.
  - intros a Ha. discriminate Ha.
  - eapply emitted_app. rewrite E, log_printed_eq. reflexivity.
Qed.

(** [run] without arguments, and [run demo] without a target. *)
Lemma run_usage_name_error_witness :
  outcome_of (RunCommand_run demo_utils passing_runner (run_args "" "")) s0
  = Raise (NameError "parser")
  /\ outcome_of (RunCommand_run demo_utils passing_runner (run_args "demo" "")) s0
     = Raise (NameError "parser").
Proof.
  split.
  - refine (proj1 (proj2 (@run_usage_name_error demo_utils passing_runner
                            (run_args "" "") s0) _)).
    left. reflexivity.
  - refine (proj1 (proj2 (@run_usage_name_error demo_utils passing_runner
                            (run_args "demo" "") s0) _)).
    right. split; [simpl; left; reflexivity | reflexivity].
Defined.

(** C9: [CreateSuiteCommand.run] for an existing project, and every
    [CreateUserCommand.run], read [root_path], which neither the function
    nor the module nor the built-ins bind: the call ends in [NameError]
    with the state untouched, nothing is created. *)
Theorem create_suite_user_name_error (U : Utils) (G : SuiteModule) (s : State) :
  lookup_global "root_path" = Raise (NameError "root_path")
  /\ (forall args : CreateSuiteArgs,
        In (cs_project args) (get_projects U (root_path (st_te s))) ->
        CreateSuiteCommand_run U G args s = (Raise (NameError "root_path"), s)
        /\ emitted (CreateSuiteCommand_run U G args) s = [])
  /\ (forall args : CreateUserArgs,
        CreateUserCommand_run U args s = (Raise (NameError "root_path"), s)
        /\ emitted (CreateUserCommand_run U args) s = []).
Proof.
  assert (Hs : forall l : list event, skipn (length l) l = []).
  { intros l. rewrite <- (app_nil_r l) at 2. apply skipn_length_app. }
  split; [reflexivity | split].
  - intros args Hin. apply py_in_true in Hin.
    assert (E : CreateSuiteCommand_run U G args s = (Raise (NameError "root_path"), s)).
    { run_command. }
    split; [exact E |]. unfold emitted. rewrite E. apply Hs.
  - intros args.
    assert (E : CreateUserCommand_run U args s = (Raise (NameError "root_path"), s)).
    { reflexivity. }
    split; [exact E |]. unfold emitted. rewrite E. apply Hs.
Qed.

(** [createsuite demo regression], and [createuser ann secret]. *)
Lemma create_suite_user_name_error_witness :
  CreateSuiteCommand_run demo_utils accepting_suite_module
    (mkCreateSuiteArgs "demo" "regression") s0
  = (Raise (NameError "root_path"), s0)
  /\ CreateUserCommand_run demo_utils (mkCreateUserArgs "ann" "secret" false [] []) s0
     = (Raise (NameError "root_path"), s0).
Proof.
  split.
  - refine (proj1 (proj1 (proj2 (@create_suite_user_name_error demo_utils
                                   accepting_suite_module s0))
                     (mkCreateSuiteArgs "demo" "regression") _)).
    simpl. left. reflexivity.
  - exact (proj1 (proj2 (proj2 (@create_suite_user_name_error demo_utils
                                  accepting_suite_module s0))
                    (mkCreateUserArgs "ann" "secret" false [] []))).
Defined.

(* ================================================================= *)
(** ** [createproject] *)

(** C10: [CreateProjectCommand.run] raises exactly when the project name
    is already a project, and then a [CommandException]; otherwise the
    name [demo] creates the demo project, and any other name a new project
    of that name. *)
Theorem create_project_cases (U : Utils) (args : CreateProjectArgs) (s : State) :
  let root := root_path (st_te s) in
  let name := cp_project args in
  (raises (outcome_of (CreateProjectCommand_run U args) s) <->
   In name (get_projects U root))
  /\ (In name (get_projects U root) ->
      CreateProjectCommand_run U args s
      = (Raise (CommandException
                  (ArgStr ("Error: a project with the name '" ++ name
                           ++ "' already exists"))), s))
  /\ (~ In name (get_projects U root) -> name = "demo" ->
      CreateProjectCommand_run U args s
      = (Ok tt, mkState (st_te s) (st_log s ++ [ECreateDemoProject root])))
  /\ (~ In name (get_projects U root) -> name <> "demo" ->
      CreateProjectCommand_run U args s
      = (Ok tt, mkState (st_te s) (st_log s ++ [ECreateNewProject root name]))).
Proof.
  intros root name.
  assert (A : py_in name (get_projects U root) = true ->
              CreateProjectCommand_run U args s
              = (Raise (CommandException
                          (ArgStr ("Error: a project with the name '" ++ name
                                   ++ "' already exists"))), s)).
  { intros E. subst root name. run_command. }
  assert (B : py_in name (get_projects U root) = false -> (name =? "demo") = true ->
              CreateProjectCommand_run U args s
              = (Ok tt, mkState (st_te s) (st_log s ++ [ECreateDemoProject root]))).
  { intros E D. subst root name. run_command. }
  assert (C : py_in name (get_projects U root) = false -> (name =? "demo") = false ->
              CreateProjectCommand_run U args s
              = (Ok tt, mkState (st_te s) (st_log s ++ [ECreateNewProject root name]))).
  { intros E D. subst root name. run_command. }
  split; [| split; [| split]].
  - unfold outcome_of.
    destruct (py_in name (get_projects U root)) eqn:E.
    + rewrite (A eq_refl). simpl. apply py_in_true in E. tauto.
    + apply py_in_false in E.
      destruct (name =? "demo") eqn:D.
      * rewrite (B eq_refl eq_refl). simpl. tauto.
      * rewrite (C eq_refl eq_refl). simpl. tauto.
  - intros H. apply A. apply py_in_true. exact H.
  - intros H D. apply B; [apply py_in_false; exact H | apply String.eqb_eq; exact D].
  - intros H D. apply C; [apply py_in_false; exact H | apply String.eqb_neq; exact D].
Qed.

(** [createproject demo] where [demo] exists, [createproject demo] in an
    empty workspace, and [createproject shop]. *)
Lemma create_project_cases_witness :
  CreateProjectCommand_run demo_utils (mkCreateProjectArgs "demo") s0
  = (Raise (CommandException
              (ArgStr "Error: a project with the name 'demo' already exists")), s0)
  /\ CreateProjectCommand_run (workspace_utils []) (mkCreateProjectArgs "demo") s0
     = (Ok tt, mkState te0 [ECreateDemoProject "/golem"])
  /\ CreateProjectCommand_run demo_utils (mkCreateProjectArgs "shop") s0
     = (Ok tt, mkState te0 [ECreateNewProject "/golem" "shop"]).
Proof.
  split; [| split].
  - refine (proj1 (proj2 (@create_project_cases demo_utils
                            (mkCreateProjectArgs "demo") s0)) _).
    simpl. left. reflexivity.
  - refine (proj1 (proj2 (proj2 (@create_project_cases (workspace_utils [])
                                   (mkCreateProjectArgs "demo") s0))) _ _).
    + simpl. intros H. exact H.
    + reflexivity.
  - refine (proj2 (proj2 (proj2 (@create_project_cases demo_utils
                                   (mkCreateProjectArgs "shop") s0))) _ _).
    + simpl. intros [H | H]; [discriminate H | exact H].
    + discriminate.
Defined.

(* ================================================================= *)
(** ** Splitting a dotted path *)

Lemma split_char_not_nil (c : ascii) (s : string) : split_char c s <> [].
Proof.
  destruct s as [| a s]; simpl; [discriminate |].
  destruct (Ascii.eqb a c); [discriminate |].
  destruct (split_char c s); discriminate.
Qed.

(** Joining the pieces with the separator gives the string back. *)
Lemma join_split_char (c : ascii) (s : string) :
  join (String c "") (split_char c s) = s.
Proof.
  unfold join. induction s as [| a s IH]; [reflexivity |].
  simpl. pose proof (split_char_not_nil c s) as N.
  destruct (Ascii.eqb a c) eqn:E.
  - apply Ascii.eqb_eq in E. subst a.
    destruct (split_char c s) as [| h t]; [contradiction |].
    simpl in *. rewrite IH. reflexivity.
  - destruct (split_char c s) as [| h t]; [contradiction |].
    destruct t as [| y t]; simpl in *; rewrite IH; reflexivity.
Qed.

(** No piece contains the separator. *)
Lemma split_char_pieces (c : ascii) (s : string) :
  Forall (fun piece => has_char c piece = false) (split_char c s).
Proof.
  induction s as [| a s IH]; simpl.
  - constructor; [reflexivity | constructor].
  - destruct (Ascii.eqb a c) eqn:E.
    + constructor; [reflexivity | exact IH].
    + destruct (split_char c s) as [| h t]; simpl.
      * constructor; [simpl; rewrite E; reflexivity | constructor].
      * inversion IH as [| ? ? Hh Ht]; subst.
        constructor; [simpl; rewrite E; exact Hh | exact Ht].
Qed.

(** A string without the separator is its own single piece. *)
Lemma split_char_whole (c : ascii) (s : string) :
  has_char c s = false -> split_char c s = [s].
Proof.
  induction s as [| a s IH]; simpl; [reflexivity |].
  intros H. apply orb_false_iff in H. destruct H as [E H].
  rewrite E, (IH H). reflexivity.
Qed.

(** The last piece is empty exactly for the empty string and for a string
    that ends with the separator. *)
Lemma split_char_last_empty (c : ascii) (s : string) :
  last (split_char c s) "" = "" <-> s = "" \/ ends_with_char c s = true.
Proof.
  induction s as [| a s IH].
  - simpl. split; [left; reflexivity | reflexivity].
  - pose proof (split_char_not_nil c s) as N.
    cbn [split_char ends_with_char].
    destruct (Ascii.eqb a c) eqn:E.
    + destruct (split_char c s) as [| h t] eqn:S; [contradiction |].
      change (last ("" :: h :: t) "") with (last (h :: t) "").
      rewrite IH. destruct s as [| b s].
      * split; intros _; [right; reflexivity | left; reflexivity].
      * split.
        -- intros [H | H]; [discriminate H | right; exact H].
        -- intros [H | H]; [discriminate H | right; exact H].
    + destruct (split_char c s) as [| h t] eqn:S; [contradiction |].
      destruct t as [| y t].
      * simpl. destruct s as [| b s].
        -- split; [discriminate | intros [H | H]; discriminate H].
        -- split; [discriminate |].
           intros [H | H]; [discriminate H |].
           simpl in IH. destruct IH as [_ IH].
           assert (X : h = "") by (apply IH; right; exact H).
           subst h. exfalso.
           assert (J := join_split_char c (String b s)).
           rewrite S in J. discriminate J.
      * change (last (String a h :: y :: t) "") with (last (y :: t) "").
        change (last (h :: y :: t) "") with (last (y :: t) "") in IH.
        rewrite IH. destruct s as [| b s].
        -- simpl in S. discriminate S.
        -- split.
           ++ intros [H | H]; [discriminate H | right; exact H].
           ++ intros [H | H]; [discriminate H | right; exact H].
Qed.

(** A list that is not empty is its [removelast] followed by its [last]. *)
Lemma pop_returns (l : list string) :
  l <> [] -> pop l = cmd_ret (last l "", removelast l).
Proof.
  intros N. unfold pop.
  destruct (rev l) as [| x r] eqn:R.
  - exfalso. apply N. rewrite <- (rev_involutive l), R. reflexivity.
  - assert (L : l = (rev r ++ [x])%list).
    { rewrite <- (rev_involutive l), R. reflexivity. }
    rewrite L, last_last, removelast_last. reflexivity.
Qed.

Lemma parents_leaf (test : string) :
  (parents_of test ++ [leaf_of test])%list = split_char dot test.
Proof.
  unfold parents_of, leaf_of. symmetry. apply app_removelast_last.
  apply split_char_not_nil.
Qed.

(* ================================================================= *)
(** ** [createtest] *)

Lemma performed_app {A} (m : Cmd A) (w : World) (r : reply A) (te : TestExecution)
    (added : list action) :
  m w = (r, mkWorld te (w_log w ++ added)) -> performed m w = added.
Proof.
  intros H. unfold performed. rewrite H. simpl. apply skipn_length_app.
Qed.

Lemma performed_nothing {A} (m : Cmd A) (w : World) (r : reply A) :
  m w = (r, w) -> performed m w = [].
Proof.
  intros H. unfold performed. rewrite H. simpl.
  rewrite <- (app_nil_r (w_log w)) at 2. apply skipn_length_app.
Qed.

Ltac unfold_cmd :=
  unfold CreateTestCommand_run, CreateDirAdminCommand_run, GuiCommand_run,
    BaseCommand_run, main, global, context, call, throw, cmd_bind, cmd_ret.

Section CreateTest.

Variable U : Utils.
Variable C : TestCaseModule.
Variable args : CreateTestArgs.
Variable w : World.

Local Abbreviation root := (root_path (w_te w)).
Local Abbreviation errors :=
  (new_test_case C root (ct_project args) (parents_of (ct_test args))
     (leaf_of (ct_test args))).
Local Abbreviation the_call :=
  (CallNewTestCase root (ct_project args) (parents_of (ct_test args))
     (leaf_of (ct_test args))).

Lemma create_test_unknown_project :
  py_in (ct_project args) (get_projects U root) = false ->
  CreateTestCommand_run U C args w
  = (Raised (Base (CommandException
                     (ArgStr "Error: a project with that name does not exist"))), w).
Proof.
  intros H. unfold_cmd. cbn. rewrite H. reflexivity.
Qed.

Lemma create_test_known_project :
  py_in (ct_project args) (get_projects U root) = true ->
  CreateTestCommand_run U C args w
  = (if truthy_list errors
     then Raised (Base (CommandException (ArgStr (join nl errors))))
     else Returned tt,
     mkWorld (w_te w) (w_log w ++ [the_call])).
Proof.
  intros H. unfold CreateTestCommand_run, cmd_bind at 1 2 3, context, global.
  cbn. rewrite H. cbn.
  unfold cmd_bind at 1. rewrite (pop_returns (@split_char_not_nil dot (ct_test args))).
  unfold_cmd. cbn. fold (leaf_of (ct_test args)) (parents_of (ct_test args)).
  destruct (truthy_list errors); reflexivity.
Qed.

End CreateTest.

(** X1: for an existing project, [createtest] makes one call of
    [new_test_case], with the pieces of the dotted argument before its last
    dot as the parents and the rest as the name: joined again with dots
    they are the argument, and neither the name nor a parent contains a
    dot. *)
Theorem create_test_splits_path (U : Utils) (C : TestCaseModule)
    (args : CreateTestArgs) (w : World) :
  In (ct_project args) (get_projects U (root_path (w_te w))) ->
  performed (CreateTestCommand_run U C args) w
  = [CallNewTestCase (root_path (w_te w)) (ct_project args)
       (parents_of (ct_test args)) (leaf_of (ct_test args))]
  /\ join "." (parents_of (ct_test args) ++ [leaf_of (ct_test args)]) = ct_test args
  /\ has_char dot (leaf_of (ct_test args)) = false
  /\ Forall (fun parent => has_char dot parent = false) (parents_of (ct_test args)).
Proof.
  intros H. apply py_in_true in H.
  pose proof (split_char_pieces dot (ct_test args)) as P.
  rewrite <- parents_leaf in P. apply Forall_app in P. destruct P as [P1 P2].
  repeat split.
  - eapply performed_app. apply create_test_known_project. exact H.
  - rewrite parents_leaf. apply (join_split_char dot).
  - inversion P2; assumption.
  - exact P1.
Qed.

(** [createtest demo login.admin.new]. *)
Lemma create_test_splits_path_witness :
  performed (CreateTestCommand_run demo_utils accepting_test_case_module
               (mkCreateTestArgs "demo" "login.admin.new")) w0
  = [CallNewTestCase "/golem" "demo" ["login"; "admin"] "new"]
  /\ join "." (["login"; "admin"] ++ ["new"]) = "login.admin.new"
  /\ has_char dot "new" = false
  /\ Forall (fun parent => has_char dot parent = false) ["login"; "admin"].
Proof.
  refine (@create_test_splits_path demo_utils accepting_test_case_module
            (mkCreateTestArgs "demo" "login.admin.new") w0 _).
  simpl. left. reflexivity.
Defined.

(** X2: for an existing project, a test argument without a dot is passed
    on whole and without parents; and the name passed on is empty exactly
    when the argument is empty or ends with a dot. *)
Theorem create_test_name_edges (U : Utils) (C : TestCaseModule)
    (args : CreateTestArgs) (w : World) :
  In (ct_project args) (get_projects U (root_path (w_te w))) ->
  (has_char dot (ct_test args) = false ->
   performed (CreateTestCommand_run U C args) w
   = [CallNewTestCase (root_path (w_te w)) (ct_project args) [] (ct_test args)])
  /\ ((exists parents,
         performed (CreateTestCommand_run U C args) w
         = [CallNewTestCase (root_path (w_te w)) (ct_project args) parents ""])
      <-> ct_test args = "" \/ ends_with_char dot (ct_test args) = true).
Proof.
  intros H. apply py_in_true in H.
  assert (P : performed (CreateTestCommand_run U C args) w
              = [CallNewTestCase (root_path (w_te w)) (ct_project args)
                   (parents_of (ct_test args)) (leaf_of (ct_test args))]).
  { eapply performed_app. apply create_test_known_project. exact H. }
  rewrite P. split.
  - intros D. unfold parents_of, leaf_of. rewrite (split_char_whole _ _ D).
    reflexivity.
  - rewrite <- (split_char_last_empty dot). fold (leaf_of (ct_test args)). split.
    + intros [parents E]. injection E as _ E. exact E.
    + intros E. exists (parents_of (ct_test args)). rewrite E. reflexivity.
Qed.

(** [createtest demo home] and [createtest demo login.]. *)
Lemma create_test_name_edges_witness :
  performed (CreateTestCommand_run demo_utils accepting_test_case_module
               (mkCreateTestArgs "demo" "home")) w0
  = [CallNewTestCase "/golem" "demo" [] "home"]
  /\ exists parents,
       performed (CreateTestCommand_run demo_utils accepting_test_case_module
                    (mkCreateTestArgs "demo" "login.")) w0
       = [CallNewTestCase "/golem" "demo" parents ""].
Proof.
  split.
  - refine (proj1 (@create_test_name_edges demo_utils accepting_test_case_module
                     (mkCreateTestArgs "demo" "home") w0 _) _).
    + simpl. left. reflexivity.
    + reflexivity.
  - refine (proj2 (proj2 (@create_test_name_edges demo_utils accepting_test_case_module
                            (mkCreateTestArgs "demo" "login.") w0 _)) _).
    + simpl. left. reflexivity.
    + right. reflexivity.
Defined.

(** X3: [createtest] raises exactly when the project does not exist or
    [new_test_case] reports errors, and then a [CommandException]: for a
    project that does not exist before anything is called, for reported
    errors after the call, with the errors joined by newlines as the
    message.  [pop] never raises [IndexError]. *)
Theorem create_test_raises_iff (U : Utils) (C : TestCaseModule)
    (args : CreateTestArgs) (w : World) :
  let root := root_path (w_te w) in
  let errors := new_test_case C root (ct_project args)
                  (parents_of (ct_test args)) (leaf_of (ct_test args)) in
  (raised (reply_of (CreateTestCommand_run U C args) w) <->
   ~ In (ct_project args) (get_projects U root) \/ errors <> [])
  /\ (~ In (ct_project args) (get_projects U root) ->
      reply_of (CreateTestCommand_run U C args) w
      = Raised (Base (CommandException
                        (ArgStr "Error: a project with that name does not exist")))
      /\ performed (CreateTestCommand_run U C args) w = [])
  /\ (In (ct_project args) (get_projects U root) -> errors <> [] ->
      reply_of (CreateTestCommand_run U C args) w
      = Raised (Base (CommandException (ArgStr (join nl errors))))
      /\ performed (CreateTestCommand_run U C args) w
         = [CallNewTestCase root (ct_project args)
              (parents_of (ct_test args)) (leaf_of (ct_test args))])
  /\ (forall msg, reply_of (CreateTestCommand_run U C args) w
                  <> Raised (IndexError msg)).
Proof.
  intros root errors. unfold reply_of.
  destruct (py_in (ct_project args) (get_projects U root)) eqn:E.
  - pose proof (create_test_known_project U C args w E) as H.
    fold root errors in H. apply py_in_true in E.
    assert (T : truthy_list errors = true <-> errors <> []).
    { destruct errors; simpl; split; intros X; try discriminate; try reflexivity.
      exfalso. apply X. reflexivity. }
    repeat split.
    + rewrite H. simpl. destruct (truthy_list errors) eqn:TL; simpl; [| contradiction].
      intros _. right. apply T. reflexivity.
    + intros [X | X]; [contradiction |]. apply T in X. rewrite H, X. exact I.
    + contradiction.
    + contradiction.
    + apply T in H1. rewrite H, H1. reflexivity.
    + eapply performed_app. exact H.
    + intros msg. rewrite H. destruct (truthy_list errors); discriminate.
  - pose proof (create_test_unknown_project U C args w E) as H.
    apply py_in_false in E. repeat split.
    + intros _. left. exact E.
    + intros _. rewrite H. exact I.
    + rewrite H. reflexivity.
    + eapply performed_nothing. exact H.
    + contradiction.
    + contradiction.
    + intros msg. rewrite H. discriminate.
Qed.

(** [createtest ghost new], and [createtest demo new] with a module that
    rejects the name. *)
Lemma create_test_raises_iff_witness :
  (reply_of (CreateTestCommand_run demo_utils rejecting_test_case_module
               (mkCreateTestArgs "ghost" "new")) w0
   = Raised (Base (CommandException
                     (ArgStr "Error: a project with that name does not exist")))
   /\ performed (CreateTestCommand_run demo_utils rejecting_test_case_module
                   (mkCreateTestArgs "ghost" "new")) w0 = [])
  /\ (reply_of (CreateTestCommand_run demo_utils rejecting_test_case_module
                  (mkCreateTestArgs "demo" "new")) w0
      = Raised (Base (CommandException
                        (ArgStr (join nl ["Invalid name"; "Test exists"]))))
      /\ performed (CreateTestCommand_run demo_utils rejecting_test_case_module
                      (mkCreateTestArgs "demo" "new")) w0
         = [CallNewTestCase "/golem" "demo" [] "new"]).
Proof.
  split.
  - refine (proj1 (proj2 (@create_test_raises_iff demo_utils rejecting_test_case_module
                            (mkCreateTestArgs "ghost" "new") w0)) _).
    simpl. intros [H | H]; [discriminate H | exact H].
  - refine (proj1 (proj2 (proj2 (@create_test_raises_iff demo_utils
                                   rejecting_test_case_module
                                   (mkCreateTestArgs "demo" "new") w0))) _ _).
    + simpl. left. reflexivity.
    + discriminate.
Defined.

(* ================================================================= *)
(** ** [createsuite] on every input *)

(** X4: [createsuite] never succeeds: whatever the arguments, it raises,
    with the state as it found it and nothing called; a
    [CommandException] when the project does not exist, the [NameError] of
    [root_path] when it does. *)
Theorem create_suite_never_succeeds (U : Utils) (G : SuiteModule)
    (args : CreateSuiteArgs) (s : State) :
  raises (outcome_of (CreateSuiteCommand_run U G args) s)
  /\ snd (CreateSuiteCommand_run U G args s) = s
  /\ emitted (CreateSuiteCommand_run U G args) s = []
  /\ (~ In (cs_project args) (get_projects U (root_path (st_te s))) ->
      outcome_of (CreateSuiteCommand_run U G args) s
      = Raise (CommandException
                 (ArgStr "Error: a project with that name does not exist")))
  /\ (In (cs_project args) (get_projects U (root_path (st_te s))) ->
      outcome_of (CreateSuiteCommand_run U G args) s = Raise (NameError "root_path")).
Proof.
  assert (Hs : forall l : list event, skipn (length l) l = []).
  { intros l. rewrite <- (app_nil_r l) at 2. apply skipn_length_app. }
  unfold outcome_of, emitted.
  destruct (py_in (cs_project args) (get_projects U (root_path (st_te s)))) eqn:E.
  - assert (H : CreateSuiteCommand_run U G args s = (Raise (NameError "root_path"), s)).
    { run_command. }
    rewrite H. apply py_in_true in E. simpl. repeat split; auto.
    intros N. contradiction.
  - assert (H : CreateSuiteCommand_run U G args s
                = (Raise (CommandException
                            (ArgStr "Error: a project with that name does not exist")),
                   s)).
    { run_command. }
    rewrite H. apply py_in_false in E. simpl. repeat split; auto.
    intros N. contradiction.
Qed.

(** [createsuite ghost regression] and [createsuite demo regression]. *)
Lemma create_suite_never_succeeds_witness :
  outcome_of (CreateSuiteCommand_run demo_utils accepting_suite_module
                (mkCreateSuiteArgs "ghost" "regression")) s0
  = Raise (CommandException (ArgStr "Error: a project with that name does not exist"))
  /\ outcome_of (CreateSuiteCommand_run demo_utils accepting_suite_module
                   (mkCreateSuiteArgs "demo" "regression")) s0
     = Raise (NameError "root_path").
Proof.
  split.
  - refine (proj1 (proj2 (proj2 (proj2 (@create_suite_never_succeeds demo_utils
              accepting_suite_module (mkCreateSuiteArgs "ghost" "regression") s0)))) _).
    simpl. intros [H | H]; [discriminate H | exact H].
  - refine (proj2 (proj2 (proj2 (proj2 (@create_suite_never_succeeds demo_utils
              accepting_suite_module (mkCreateSuiteArgs "demo" "regression") s0)))) _).
    simpl. left. reflexivity.
Defined.

(* ================================================================= *)
(** ** The execution context outside [run] *)

(** X5: of all the commands only [run] writes [test_execution]:
    [createproject], [createsuite], [createuser], [createtest], [gui],
    [createdirectory] and [BaseCommand.run] leave it as they found it, on
    every path. *)
Theorem commands_keep_context (U : Utils) (G : SuiteModule) (C : TestCaseModule)
    (O : Os) (s : State) (w : World) :
  (forall args, context_after (CreateProjectCommand_run U args) s = st_te s)
  /\ (forall args, context_after (CreateSuiteCommand_run U G args) s = st_te s)
  /\ (forall args, context_after (CreateUserCommand_run U args) s = st_te s)
  /\ (forall args, w_te (snd (CreateTestCommand_run U C args w)) = w_te w)
  /\ (forall args, w_te (snd (GuiCommand_run args w)) = w_te w)
  /\ (forall name, w_te (snd (CreateDirAdminCommand_run O name w)) = w_te w)
  /\ w_te (snd (BaseCommand_run w)) = w_te w.
Proof.
  unfold context_after.
  split; [| split; [| split; [| split; [| split; [| split]]]]].
  - intros args. unfold_command. cbn.
    destruct (py_in (cp_project args) (get_projects U (root_path (st_te s))));
      [reflexivity |].
    destruct (cp_project args =? "demo"); reflexivity.
  - intros args. unfold_command. cbn.
    destruct (py_in (cs_project args) (get_projects U (root_path (st_te s))));
      reflexivity.
  - intros args. reflexivity.
  - intros args.
    destruct (py_in (ct_project args) (get_projects U (root_path (w_te w)))) eqn:E.
    + rewrite (create_test_known_project U C args w E). reflexivity.
    + rewrite (create_test_unknown_project U C args w E). reflexivity.
  - intros args. reflexivity.
  - intros name. unfold_cmd. cbn. destruct (path_exists O name); reflexivity.
  - reflexivity.
Qed.

(* ================================================================= *)
(** ** How [run] ends, and what it has started by then *)

(** Every run ends in one of three ways. *)
Lemma run_endings (U : Utils) (T : TestRunner) (args : RunArgs) (s : State) :
  (outcome_of (RunCommand_run U T args) s = Raise (NameError "parser")
   /\ emitted (RunCommand_run U T args) s = [printed args])
  \/ ((exists msg, outcome_of (RunCommand_run U T args) s
                   = Raise (CommandException (ArgStr msg)))
      /\ emitted (RunCommand_run U T args) s = [printed args])
  \/ (outcome_of (RunCommand_run U T args) s = Ok tt
      /\ exists e, is_execution e = true
                   /\ emitted (RunCommand_run U T args) s = [printed args; e]).
Proof.
  unfold outcome_of.
  destruct (truthy (args_project args)) eqn:E1.
  2:{ left. pose proof (run_project_missing U T args s E1) as H.
      split; [rewrite H; reflexivity |].
      eapply emitted_app. rewrite H, log_printed_eq. reflexivity. }
  destruct (py_in (args_project args) (get_projects U (root_path (st_te s)))) eqn:E2.
  2:{ right. left. pose proof (run_project_unknown U T args s E1 E2) as H.
      split; [eexists; rewrite H; reflexivity |].
      eapply emitted_app. rewrite H, log_printed_eq. reflexivity. }
  destruct (truthy (args_test_or_suite args)) eqn:E3.
  2:{ left. pose proof (run_target_missing U T args s E1 E2 E3) as H.
      split; [rewrite H; reflexivity |].
      eapply emitted_app. rewrite H, log_printed_eq. reflexivity. }
  apply truthy_true in E1, E3. apply py_in_true in E2.
  assert (Hp : valid_project U args s) by (split; assumption).
  pose proof (outcome_resolved T Hp E3) as Ho. unfold outcome_of in Ho.
  pose proof (emitted_resolved T Hp E3) as He.
  rewrite Ho, He.
  destruct (resolve_spec U (root_path (st_te s)) (VStr (args_project args))
              (args_test_or_suite args)); cbn [branch_of].
  - right. right. split; [reflexivity |]. eexists. split; [| reflexivity]. reflexivity.
  - right. right. split; [reflexivity |]. eexists. split; [| reflexivity]. reflexivity.
  - right. right. split; [reflexivity |]. eexists. split; [| reflexivity]. reflexivity.
  - right. left. split; [eexists; reflexivity | reflexivity].
Qed.

(** X6: [run] returns exactly when it has made one call into the test
    runner, and raises exactly when it has made none: in both cases the
    print of line 47 is the only other thing it emits. *)
Theorem run_returns_iff_executed (U : Utils) (T : TestRunner) (args : RunArgs)
    (s : State) :
  (outcome_of (RunCommand_run U T args) s = Ok tt <->
   exists e, is_execution e = true
             /\ emitted (RunCommand_run U T args) s = [printed args; e])
  /\ (raises (outcome_of (RunCommand_run U T args) s) <->
      emitted (RunCommand_run U T args) s = [printed args]).
Proof.
  destruct (run_endings U T args s) as [[Ho He] | [[[msg Ho] He] | [Ho [e [Hx He]]]]];
    rewrite Ho, He; split; split; simpl; intros H;
    try discriminate H; try contradiction; try reflexivity; try exact I.
  - destruct H as [e [_ H]]. discriminate H.
  - destruct H as [e [_ H]]. discriminate H.
  - exists e. split; [exact Hx | reflexivity].
Qed.

(** X7: no run shows the catalog: on no input does [run] call
    [display_tree_structure_command_line] or raise the [CommandException]
    that carries the list of usage lines (lines 71-80 are never
    reached). *)
Theorem run_never_lists_catalog (U : Utils) (T : TestRunner) (args : RunArgs)
    (s : State) :
  (forall test_cases, ~ In (EDisplayTree test_cases) (emitted (RunCommand_run U T args) s))
  /\ (forall lines, outcome_of (RunCommand_run U T args) s
                    <> Raise (CommandException (ArgList lines))).
Proof.
  destruct (run_endings U T args s) as [[Ho He] | [[[msg Ho] He] | [Ho [e [Hx He]]]]];
    rewrite Ho, He; split.
  - intros tc [H | []]. discriminate H.
  - intros lines H. discriminate H.
  - intros tc [H | []]. discriminate H.
  - intros lines H. discriminate H.
  - intros tc [H | [H | []]]; [discriminate H |]. subst e. discriminate Hx.
  - intros lines H. discriminate H.
Qed.

(* ================================================================= *)
(** ** One run after another *)

(** X9: [run] never clears what an earlier run wrote: after a run that
    resolved to a suite or a directory, a second run in the same process
    that resolves to a test case returns with [test] set to its target and
    [suite] still naming the target of the first run. *)
Theorem run_then_run_keeps_suite (U : Utils) (T : TestRunner)
    (first second : RunArgs) (s : State) :
  let root := root_path (st_te s) in
  let after_first := snd (RunCommand_run U T first s) in
  valid_project U first s ->
  args_test_or_suite first <> "" ->
  resolve_spec U root (VStr (args_project first)) (args_test_or_suite first)
    <> SingleTest ->
  resolve_spec U root (VStr (args_project first)) (args_test_or_suite first)
    <> NotFound ->
  valid_project U second s ->
  args_test_or_suite second <> "" ->
  resolve_spec U root (VStr (args_project second)) (args_test_or_suite second)
    = SingleTest ->
  outcome_of (RunCommand_run U T second) after_first = Ok tt
  /\ suite (context_after (RunCommand_run U T second) after_first)
     = VStr (args_test_or_suite first)
  /\ test (context_after (RunCommand_run U T second) after_first)
     = VStr (args_test_or_suite second)
  /\ project (context_after (RunCommand_run U T second) after_first)
     = VStr (args_project second).
Proof.
  intros root after_first Hp1 Ht1 N1 N2 Hp2 Ht2 R2.
  assert (F : root_path (st_te after_first) = root
              /\ suite (st_te after_first) = VStr (args_test_or_suite first)).
  { subst after_first. pose proof (run_resolved T Hp1 Ht1) as H. cbv zeta in H.
    fold root in H. rewrite H.
    destruct (resolve_spec U root (VStr (args_project first))
                (args_test_or_suite first));
      try (split; reflexivity); exfalso; [apply N1 | apply N2]; reflexivity. }
  destruct F as [F1 F2].
  assert (Hp2' : valid_project U second after_first).
  { destruct Hp2 as [A B]. split; [exact A |]. rewrite F1. exact B. }
  pose proof (run_resolved T Hp2' Ht2) as H. cbv zeta in H.
  rewrite F1, R2 in H. unfold outcome_of, context_after. rewrite H. cbn.
  repeat split. exact F2.
Qed.

(** [run demo smoke], then [run demo login.testY]. *)
Lemma run_then_run_keeps_suite_witness :
  outcome_of (RunCommand_run demo_utils passing_runner (run_args "demo" "login.testY"))
    (snd (RunCommand_run demo_utils passing_runner (run_args "demo" "smoke") s0))
  = Ok tt
  /\ suite (context_after
              (RunCommand_run demo_utils passing_runner (run_args "demo" "login.testY"))
              (snd (RunCommand_run demo_utils passing_runner
                      (run_args "demo" "smoke") s0)))
     = VStr "smoke"
  /\ test (context_after
             (RunCommand_run demo_utils passing_runner (run_args "demo" "login.testY"))
             (snd (RunCommand_run demo_utils passing_runner
                     (run_args "demo" "smoke") s0)))
     = VStr "login.testY"
  /\ project (context_after
                (RunCommand_run demo_utils passing_runner
                   (run_args "demo" "login.testY"))
                (snd (RunCommand_run demo_utils passing_runner
                        (run_args "demo" "smoke") s0)))
     = VStr "demo".
Proof.
  refine (@run_then_run_keeps_suite demo_utils passing_runner
            (run_args "demo" "smoke") (run_args "demo" "login.testY") s0
            _ _ _ _ _ _ _).
  - split; [discriminate | simpl; left; reflexivity].
  - discriminate.
  - discriminate.
  - discriminate.
  - split; [discriminate | simpl; left; reflexivity].
  - discriminate.
  - reflexivity.
Defined.

(* ================================================================= *)
(** ** [createdirectory] *)

Lemma create_directory_exists (O : Os) (name : string) (w : World) :
  path_exists O name = true ->
  CreateDirAdminCommand_run O name w
  = (Raised (Base (CommandException
                     (ArgStr ("Error: the directory " ++ name ++ " already exists")))),
     w).
Proof.
  intros H. unfold_cmd. cbn. rewrite H. reflexivity.
Qed.

Lemma create_directory_new (O : Os) (name : string) (w : World) :
  path_exists O name = false ->
  CreateDirAdminCommand_run O name w
  = (Returned tt,
     mkWorld (w_te w) (w_log w ++ [CallCreateTestDir (posix_join (getcwd O) name)])).
Proof.
  intros H. unfold_cmd. cbn. rewrite H. reflexivity.
Qed.

(** X10: [createdirectory] raises a [CommandException] that names the
    directory, and creates nothing, when the path exists; otherwise it
    returns after one call of [create_test_dir], on the name itself when
    the name is an absolute path, and else on a path that starts with the
    current directory and ends with the name. *)
Theorem create_directory_cases (O : Os) (name : string) (w : World) :
  (path_exists O name = true ->
   reply_of (CreateDirAdminCommand_run O name) w
   = Raised (Base (CommandException
                     (ArgStr ("Error: the directory " ++ name ++ " already exists"))))
   /\ contains name ("Error: the directory " ++ name ++ " already exists") = true
   /\ performed (CreateDirAdminCommand_run O name) w = [])
  /\ (path_exists O name = false ->
      reply_of (CreateDirAdminCommand_run O name) w = Returned tt
      /\ exists destination,
           performed (CreateDirAdminCommand_run O name) w
           = [CallCreateTestDir destination]
           /\ (starts_with "/" name = true -> destination = name)
           /\ (starts_with "/" name = false ->
               starts_with (getcwd O) destination = true
               /\ (destination = getcwd O ++ name
                   \/ destination = getcwd O ++ "/" ++ name))).
Proof.
  split.
  - intros H. pose proof (create_directory_exists O name w H) as E.
    unfold reply_of. rewrite E. repeat split.
    + apply contains_append.
    + eapply performed_nothing. exact E.
  - intros H. pose proof (create_directory_new O name w H) as E.
    unfold reply_of. rewrite E. split; [reflexivity |].
    exists (posix_join (getcwd O) name). split; [| split].
    + eapply performed_app. exact E.
    + intros A. unfold posix_join. rewrite A. reflexivity.
    + intros A. unfold posix_join. rewrite A.
      destruct ((getcwd O =? "") || ends_with_char "/" (getcwd O)).
      * split; [apply prefix_append | left; reflexivity].
      * split; [apply prefix_append | right; reflexivity].
Qed.

(** From [/home/ann]: [createdirectory golem], which exists,
    [createdirectory tests] and [createdirectory /srv/tests]. *)
Lemma create_directory_cases_witness :
  reply_of (CreateDirAdminCommand_run demo_os "golem") w0
  = Raised (Base (CommandException
                    (ArgStr "Error: the directory golem already exists")))
  /\ reply_of (CreateDirAdminCommand_run demo_os "tests") w0 = Returned tt
  /\ reply_of (CreateDirAdminCommand_run demo_os "/srv/tests") w0 = Returned tt.
Proof.
  split; [| split].
  - refine (proj1 (proj1 (@create_directory_cases demo_os "golem" w0) _)).
    reflexivity.
  - refine (proj1 (proj2 (@create_directory_cases demo_os "tests" w0) _)).
    reflexivity.
  - refine (proj1 (proj2 (@create_directory_cases demo_os "/srv/tests" w0) _)).
    reflexivity.
Defined.

(** [run ghost smoke] in a fresh process. *)
Lemma run_unknown_project_witness :
  outcome_of (RunCommand_run demo_utils passing_runner (run_args "ghost" "smoke")) s0
  = Raise (CommandException (ArgStr ("Error: the project " ++ py_str VNone
                                     ++ " does not exist")))
  /\ emitted (RunCommand_run demo_utils passing_runner (run_args "ghost" "smoke")) s0
     = [EPrint [AStr "args.threads"; AInt 0]]
  /\ project (context_after (RunCommand_run demo_utils passing_runner
                               (run_args "ghost" "smoke")) s0) = VNone.
Proof.
  refine (@run_unknown_project demo_utils passing_runner
            (run_args "ghost" "smoke") s0 _ _).
  - discriminate.
  - simpl. intros [H | H]; [discriminate H | exact H].
Defined.

(* ================================================================= *)
(** ** The project is switched before the target is looked at *)

(** X13: [run] switches the context to the project as soon as the project
    is found to exist, whatever becomes of the target: with a valid
    project, also when the target is missing or matches nothing and [run]
    raises, the context ends with [project] set to the argument and
    [settings] replaced by the settings of that project; with a project
    that is missing or unknown both are left alone. *)
Theorem run_commits_project (U : Utils) (T : TestRunner) (args : RunArgs)
    (s : State) :
  (valid_project U args s ->
   project (context_after (RunCommand_run U T args) s) = VStr (args_project args)
   /\ settings (context_after (RunCommand_run U T args) s)
      = get_project_settings U (args_project args) (settings (st_te s)))
  /\ (~ valid_project U args s ->
      project (context_after (RunCommand_run U T args) s) = project (st_te s)
      /\ settings (context_after (RunCommand_run U T args) s) = settings (st_te s)).
Proof.
  unfold context_after. split.
  - intros Hp. destruct (truthy (args_test_or_suite args)) eqn:E3.
    + apply truthy_true in E3. pose proof (run_resolved T Hp E3) as H.
      cbv zeta in H. rewrite H.
      destruct (resolve_spec U (root_path (st_te s)) (VStr (args_project args))
                  (args_test_or_suite args)); split; reflexivity.
    + apply valid_project_bool in Hp. destruct Hp as [E1 E2].
      rewrite (run_target_missing U T args s E1 E2 E3). split; reflexivity.
  - intros N. destruct (truthy (args_project args)) eqn:E1.
    + destruct (py_in (args_project args) (get_projects U (root_path (st_te s))))
        eqn:E2.
      * exfalso. apply N. split; [apply truthy_true | apply py_in_true]; assumption.
      * rewrite (run_project_unknown U T args s E1 E2). split; reflexivity.
    + rewrite (run_project_missing U T args s E1). split; reflexivity.
Qed.

(** [run demo nothing] raises, and the context is on [demo]; [run ghost
    smoke] leaves the context where it was. *)
Lemma run_commits_project_witness :
  project (context_after (RunCommand_run demo_utils passing_runner
                            (run_args "demo" "nothing")) s0) = VStr "demo"
  /\ project (context_after (RunCommand_run demo_utils passing_runner
                               (run_args "ghost" "smoke")) s0) = VNone.
Proof.
  split.
  - refine (proj1 (proj1 (@run_commits_project demo_utils passing_runner
                            (run_args "demo" "nothing") s0) _)).
    split; [discriminate | simpl; left; reflexivity].
  - refine (proj1 (proj2 (@run_commits_project demo_utils passing_runner
                            (run_args "ghost" "smoke") s0) _)).
    intros [_ H]. simpl in H. destruct H as [H | H]; [discriminate H | exact H].
Defined.

(* ================================================================= *)
(** ** [golem_admin.main] *)

(** [main] once [parse_args] has returned the arguments. *)
Lemma main_parsed (usage : string) (args : AdminArgs)
    (createdirectory_command : string -> option exception) (w : World) :
  main usage (Returned args) createdirectory_command w
  = if adm_help args then
      (Returned tt, mkWorld (w_te w) (w_log w ++ [CallPrint [AStr usage]]))
    else if truthy_value (adm_command args) then
      if value_is (adm_command args) "createdirectory" then
        (match createdirectory_command (adm_name args) with
         | None => Returned tt
         | Some e => Raised e
         end,
         mkWorld (w_te w) (w_log w ++ [CallCreatedirectoryCommand (adm_name args)]))
      else (Returned tt, w)
    else
      (Returned tt, mkWorld (w_te w) (w_log w ++ [CallPrint [AStr usage]])).
Proof.
  unfold main, cmd_bind, call, cmd_ret, throw.
  destruct (adm_help args); [reflexivity |].
  destruct (truthy_value (adm_command args)); [| reflexivity].
  destruct (value_is (adm_command args) "createdirectory"); [| reflexivity].
  destruct (createdirectory_command (adm_name args)); reflexivity.
Qed.

(** X11: when [parse_args] raises, [main] raises the same and does
    nothing.  When it returns the arguments, [main] does at most one
    thing: it calls [createdirectory_command], with the name, exactly when
    [help] is not set and the command is [createdirectory]; it prints the
    usage message exactly when [help] is set or the command is missing or
    empty; for any other command it does nothing at all; and it raises
    exactly when the [createdirectory_command] it called raises. *)
Theorem admin_main_cases (usage : string) (args : AdminArgs)
    (createdirectory_command : string -> option exception) (w : World) :
  (forall e, main usage (Raised e) createdirectory_command w = (Raised e, w))
  /\ (performed (main usage (Returned args) createdirectory_command) w
      = [CallCreatedirectoryCommand (adm_name args)]
      <-> adm_help args = false /\ adm_command args = VStr "createdirectory")
  /\ (performed (main usage (Returned args) createdirectory_command) w
      = [CallPrint [AStr usage]]
      <-> adm_help args = true \/ adm_command args = VNone
          \/ adm_command args = VStr "")
  /\ (performed (main usage (Returned args) createdirectory_command) w = []
      <-> adm_help args = false /\ truthy_value (adm_command args) = true
          /\ adm_command args <> VStr "createdirectory")
  /\ (raised (reply_of (main usage (Returned args) createdirectory_command) w)
      <-> adm_help args = false /\ adm_command args = VStr "createdirectory"
          /\ createdirectory_command (adm_name args) <> None).
Proof.
  split; [intros e; reflexivity |].
  pose proof (main_parsed usage args createdirectory_command w) as M.
  unfold reply_of.
  destruct (adm_help args) eqn:Hh.
  { rewrite (@performed_app _ _ _ _ _ _ M), M. cbn [fst raised].
    repeat apply conj; intros; intuition (try discriminate; try congruence). }
  destruct (adm_command args) as [| c] eqn:Hc; cbn [truthy_value value_is] in *.
  { rewrite (@performed_app _ _ _ _ _ _ M), M. cbn [fst raised].
    repeat apply conj; intros; intuition (try discriminate; try congruence). }
  unfold truthy in *.
  destruct (c =? "") eqn:Ec; cbn [negb] in *.
  { apply String.eqb_eq in Ec. subst c.
    rewrite (@performed_app _ _ _ _ _ _ M), M. cbn [fst raised].
    repeat apply conj; intros; intuition (try discriminate; try congruence). }
  apply String.eqb_neq in Ec.
  destruct (c =? "createdirectory") eqn:Ed.
  - apply String.eqb_eq in Ed. subst c.
    rewrite (@performed_app _ _ _ _ _ _ M), M. cbn [fst].
    destruct (createdirectory_command (adm_name args)); cbn [raised];
      repeat apply conj; intros;
      intuition (try discriminate; try congruence).
  - apply String.eqb_neq in Ed.
    rewrite (@performed_nothing _ _ _ _ M), M. cbn [fst raised].
    assert (N : VStr c <> VStr "createdirectory") by congruence.
    assert (N' : VStr c <> VStr "") by congruence.
    repeat apply conj; intros; intuition (try discriminate; try congruence).
Qed.
